(** * jingo-minify: the template helpers of [jingo_minify/helpers.py]

    A shallow embedding of the helpers that turn a bundle name into
    [<script>] / [<link>] markup, and of the on-demand stylesheet
    compilation they trigger in debug mode, followed by the properties
    proved about them.

    Python values are embedded as follows.
    - [str] is [string]; [%]-formatting with a literal format is written as
      the concatenation it denotes.
    - the floats returned by [os.path.getmtime] and [time.time] are
      rationals ([Q]): every finite float is one, and the code only
      compares them and truncates them with [int].
    - [dict]s are [gmap]s, the manifest's item sequences are lists.
    - a function that touches the file system, the clock or a child
      process is a state transformer over [World] that returns either a
      value or the exception it raises. *)

From Stdlib Require Import ZArith QArith String Ascii List DecimalString Lia.
From stdpp Require Import base gmap strings list.

Open Scope string_scope.

(** ** Strings, the way Python's [str] methods and [os.path] treat them *)

Module Py.

(** The double-quote and newline characters, which the markup needs. *)
Definition dq : string := String (ascii_of_nat 34) EmptyString.
Definition nl : string := String (ascii_of_nat 10) EmptyString.

(** [s.startswith(p)] *)
Definition startswith (s p : string) : bool := String.prefix p s.

(** [s.endswith(suf)]: [suf] is no longer than [s] and equals its tail. *)
Definition endswith (s suf : string) : bool :=
  let n := String.length s in
  let k := String.length suf in
  (k <=? n)%nat && String.eqb (substring (n - k) k s) suf.

(** [s.startswith((p1, p2, ...))] and [s.endswith((p1, p2, ...))] *)
Definition startswith_any (s : string) (ps : list string) : bool :=
  existsb (startswith s) ps.
Definition endswith_any (s : string) (ps : list string) : bool :=
  existsb (endswith s) ps.

(** [sep.join(parts)] *)
Fixpoint join (sep : string) (parts : list string) : string :=
  match parts with
  | [] => ""
  | [p] => p
  | p :: rest => p ++ sep ++ join sep rest
  end.

(** [int(x)] on a float truncates towards zero. *)
Definition int (x : Q) : Z := Z.quot (Qnum x) (Zpos (Qden x)).

(** ['%s' % n] for an integer [n]: its decimal numeral. *)
Definition str (n : Z) : string := NilZero.string_of_int (Z.to_int n).

(** [not x] for a number: a float or an int is falsy exactly when zero. *)
Definition is_zero (x : Q) : bool := Z.eqb (Qnum x) 0.

(** [a > b] on numbers. *)
Definition gt (a b : Q) : bool := negb (Qle_bool a b).

Definition is_slash (c : ascii) : bool := Ascii.eqb c "/"%char.

(** [p.rfind('/') + 1]: one past the last slash, 0 when there is none. *)
Fixpoint after_last_slash (p : string) : nat :=
  match p with
  | EmptyString => 0
  | String c p' =>
      match after_last_slash p' with
      | O => if is_slash c then 1 else 0
      | S i => S (S i)
      end
  end.

Fixpoint all_slashes (p : string) : bool :=
  match p with
  | EmptyString => true
  | String c p' => is_slash c && all_slashes p'
  end.

(** [p.rstrip('/')] *)
Fixpoint rstrip_slashes (p : string) : string :=
  match p with
  | EmptyString => EmptyString
  | String c p' =>
      match rstrip_slashes p' with
      | EmptyString => if is_slash c then EmptyString else String c EmptyString
      | r => String c r
      end
  end.

(** [posixpath.dirname]:
<<
    i = p.rfind('/') + 1
    head = p[:i]
    if head and head != '/'*len(head):
        head = head.rstrip('/')
    return head
>> *)
Definition dirname (p : string) : string :=
  let head := substring 0 (after_last_slash p) p in
  if all_slashes head then head else rstrip_slashes head.

(** [posixpath.split]: the same head, and the tail [p[i:]] after the last
    slash. *)
Definition split (p : string) : string * string :=
  let i := after_last_slash p in
  (dirname p, substring i (String.length p - i) p).

(** [posixpath.join(a, b)]: an absolute [b] replaces [a]; otherwise the
    two are glued with exactly one separator. *)
Definition path_join (a b : string) : string :=
  if startswith b "/" then b
  else if String.eqb a "" || endswith a "/" then a ++ b
  else a ++ "/" ++ b.

(** [getattr(obj, name, default)] for an attribute that may be unset. *)
Definition getattr {A} (attribute : option A) (dflt : A) : A :=
  match attribute with
  | Some v => v
  | None => dflt
  end.

End Py.

(** ** Exceptions and the effect monad *)

(** The exceptions the helpers can let through. [OSError] and [IOError]
    carry their [errno]. *)
Inductive Exn : Type :=
| KeyError (key : string)
| AttributeError (name : string)
| TypeError (msg : string)
| OSError (errno : Z)
| IOError (errno : Z).

Definition ENOENT : Z := 2.
Definition EEXIST : Z := 17.
Definition EISDIR : Z := 21.

Inductive Result (A : Type) : Type :=
| Ok (value : A)
| Raise (e : Exn).

Arguments Ok {A} value.
Arguments Raise {A} e.

Definition is_ok {A} (r : Result A) : bool :=
  match r with
  | Ok _ => true
  | Raise _ => false
  end.

(** What exists at a path, and its [st_mtime]. *)
Inductive NodeKind : Type := RegularFile | Directory.

Record Node : Type := mkNode { node_kind : NodeKind; st_mtime : Q }.

(** Child processes started by the helpers. [Popen argv out] is
    [subprocess.Popen(argv, stdout=<file opened at out>)];
    [ShellCall cmd] is [subprocess.call(cmd, shell=True)]. *)
Inductive Event : Type :=
| Popen (argv : list string) (out : string)
| ShellCall (cmd : string).

(** The part of the machine the helpers read and write: the file system,
    how many times the clock has been read, and the child processes started
    so far (most recent first). *)
Record World : Type := mkWorld {
  fs : gmap string Node;
  ticks : nat;
  trace : list Event
}.

Definition M (A : Type) : Type := World -> Result A * World.

Definition ret {A} (a : A) : M A := fun w => (Ok a, w).

Definition raise {A} (e : Exn) : M A := fun w => (Raise e, w).

Definition bind {A B} (c : M A) (k : A -> M B) : M B :=
  fun w =>
    match c w with
    | (Ok a, w') => k a w'
    | (Raise e, w') => (Raise e, w')
    end.

Declare Scope py_scope.
Delimit Scope py_scope with py.
Notation "'let*' x ':=' c 'in' k" := (bind c (fun x => k))
  (at level 10, x name, c at level 100, k at level 200) : py_scope.
Notation "c '>>' k" := (bind c (fun _ => k))
  (at level 80, right associativity) : py_scope.
Open Scope py_scope.

(** A list comprehension whose element expression has effects: elements are
    evaluated left to right and the first exception aborts the rest. *)
Fixpoint mapM {A B} (f : A -> M B) (l : list A) : M (list B) :=
  match l with
  | [] => ret []
  | x :: rest =>
      let* y := f x in
      let* ys := mapM f rest in
      ret (y :: ys)
  end.

(** [obj.name] for a setting that may be unset. *)
Definition attr {A} (name : string) (attribute : option A) : M A :=
  match attribute with
  | Some v => ret v
  | None => raise (AttributeError name)
  end.

(** [d[key]] *)
Definition subscript {V} (d : gmap string V) (key : string) : M V :=
  match d !! key with
  | Some v => ret v
  | None => raise (KeyError key)
  end.

(** ** Configuration *)

(** The Django settings the helpers read. Settings read with [getattr] and
    a default, and project settings that Django does not predefine, may be
    unset; the URL and root settings always hold a string. *)
Record Settings : Type := mkSettings {
  JINGO_MINIFY_USE_STATIC : option bool;
  STATIC_ROOT : string;
  MEDIA_ROOT : string;
  STATIC_URL : string;
  MEDIA_URL : string;
  DEBUG : option bool;
  TEMPLATE_DEBUG : bool;
  MINIFY_BUNDLES : option (gmap string (gmap string (list string)));
  CSS_MEDIA_DEFAULT : option string;
  LESS_PREPROCESS : option bool;
  LESS_BIN : option string;
  SASS_BIN : option string;
  STYLUS_BIN : option string
}.

(** The names a generated [build] module may define. *)
Record BuildModule : Type := mkBuildModule {
  mod_BUILD_ID_CSS : option string;
  mod_BUILD_ID_JS : option string;
  mod_BUILD_ID_IMG : option string;
  mod_BUNDLE_HASHES : option (gmap string string)
}.

(** The four module-level names of [helpers.py]. *)
Record BuildIds : Type := mkBuildIds {
  BUILD_ID_CSS : string;
  BUILD_ID_JS : string;
  BUILD_ID_IMG : string;
  BUNDLE_HASHES : gmap string string
}.

(**
<<
    try:
        from build import BUILD_ID_CSS, BUILD_ID_JS, BUILD_ID_IMG, BUNDLE_HASHES
    except ImportError:
        BUILD_ID_CSS = BUILD_ID_JS = BUILD_ID_IMG = 'dev'
        BUNDLE_HASHES = {}
>>
    The import fails when there is no [build] module or when it lacks one of
    the four names. *)
Definition import_build (build : option BuildModule) : BuildIds :=
  match build with
  | Some {| mod_BUILD_ID_CSS := Some c; mod_BUILD_ID_JS := Some j;
            mod_BUILD_ID_IMG := Some i; mod_BUNDLE_HASHES := Some h |} =>
      mkBuildIds c j i h
  | _ => mkBuildIds "dev" "dev" "dev" ∅
  end.

(** ** The operating system, as far as the helpers see it *)

(** What the helpers cannot decide themselves: the readings of the wall
    clock (the n-th reading is [clock n]), Django's [staticfiles] lookup
    ([None] when the path is not found; its answers do not change when a
    derived stylesheet is written), and the error, if any, with which the
    system refuses to create a directory, to open a file for writing, or to
    start an executable. *)
Record Host : Type := mkHost {
  clock : nat -> Q;
  static_finder : string -> option string;
  makedirs_errno : string -> option Z;
  open_errno : string -> option Z;
  exec_errno : string -> option Z
}.

(** The step [os.makedirs] takes from a name to the directory above it:
<<
    head, tail = path.split(name)
    if not tail:
        head, tail = path.split(head)
    if head and tail and not path.exists(head):
        makedirs(head, mode)
>>
    [None] when [head] or [tail] is empty, where the walk up ends. *)
Definition parent_of (name : string) : option string :=
  let (head, tail) := Py.split name in
  let (head, tail) := if String.eqb tail "" then Py.split head else (head, tail) in
  if negb (String.eqb head "") && negb (String.eqb tail "") then Some head else None.

(** The directories above [name], the nearest last. Each is shorter than
    the one below it, so the length of [name] is fuel enough. *)
Fixpoint parents (fuel : nat) (name : string) : list string :=
  match fuel with
  | O => []
  | S fuel' =>
      match parent_of name with
      | Some head => (parents fuel' head ++ [head])%list
      | None => []
      end
  end.

(** Those of them that [os.makedirs(name)] has to create: it walks up
    until it meets a path that exists, and creates the directories below
    it from the top down. *)
Fixpoint missing_parents (fuel : nat) (files : gmap string Node) (name : string)
  : list string :=
  match fuel with
  | O => []
  | S fuel' =>
      match parent_of name with
      | Some head =>
          if bool_decide (is_Some (files !! head)) then []
          else (missing_parents fuel' files head ++ [head])%list
      | None => []
      end
  end.

Section Helpers.

Context (settings : Settings) (build : option BuildModule) (host : Host).

(** [time.time()] *)
Definition time_time : M Q :=
  fun w => (Ok (clock host (ticks w)), mkWorld (fs w) (S (ticks w)) (trace w)).

(** [os.path.getmtime(p)]: [OSError] when nothing is at [p]. *)
Definition os_path_getmtime (p : string) : M Q :=
  fun w =>
    match fs w !! p with
    | Some n => (Ok (st_mtime n), w)
    | None => (Raise (OSError ENOENT), w)
    end.

(** [os.path.exists(p)] *)
Definition os_path_exists (p : string) : M bool :=
  fun w => (Ok (bool_decide (is_Some (fs w !! p))), w).

(** A node written now: its mtime is the next clock reading. *)
Definition touch (kind : NodeKind) (p : string) (w : World) : World :=
  mkWorld (<[p := mkNode kind (clock host (ticks w))]> (fs w)) (S (ticks w)) (trace w).

(** The directories named by [paths] created one after the other. *)
Definition touch_all (paths : list string) (w : World) : World :=
  fold_left (fun w' d => touch Directory d w') paths w.

(** [os.makedirs(p)]: [EEXIST] when [p] is already there; else whatever
    error the system answers with, met at the first directory that would
    have to be created, so that nothing has been created; else every
    missing directory above [p] is created, from the top down, and then
    [p] itself. Paths are compared as written: a name ending in [/.] is
    created like any other. The mtime of a directory also changes when an
    entry is created in it; that is not tracked, and no statement below is
    about the mtime of a directory that existed before. *)
Definition os_makedirs (p : string) : M unit :=
  fun w =>
    match fs w !! p with
    | Some _ => (Raise (OSError EEXIST), w)
    | None =>
        match makedirs_errno host p with
        | Some e => (Raise (OSError e), w)
        | None =>
            (Ok tt,
             touch_all (missing_parents (String.length p) (fs w) p ++ [p])%list w)
        end
    end.

(** Can [p] be opened for writing, and if not, with which [errno]? *)
Definition open_refused (p : string) (w : World) : option Z :=
  match fs w !! p with
  | Some {| node_kind := Directory |} => Some EISDIR
  | _ => open_errno host p
  end.

(** [open(p, 'w')]: creates or truncates the file. *)
Definition open_w (p : string) : M unit :=
  fun w =>
    match open_refused p w with
    | Some e => (Raise (IOError e), w)
    | None => (Ok tt, touch RegularFile p w)
    end.

(** [subprocess.Popen(argv, stdout=output)] where [output] is the file
    opened at [out]. The call returns as soon as the child is started;
    what the child writes later is not part of the call. [OSError] when
    the executable cannot be started. *)
Definition subprocess_Popen (argv : list string) (out : string) : M unit :=
  fun w =>
    match exec_errno host (hd "" argv) with
    | Some e => (Raise (OSError e), w)
    | None => (Ok tt, mkWorld (fs w) (ticks w) (Popen argv out :: trace w))
    end.

(** [subprocess.call(cmd, shell=True)] for a command ending in [> out]:
    the shell is started, opens [out] for writing when it can, runs the
    command and the call waits for it. The exit status is returned to a
    caller that ignores it. (Paths are taken to be free of characters the
    shell would interpret.) *)
Definition subprocess_call_shell (cmd : string) (out : string) : M unit :=
  fun w =>
    let w' := mkWorld (fs w) (ticks w) (ShellCall cmd :: trace w) in
    match open_refused out w' with
    | Some _ => (Ok tt, w')
    | None => (Ok tt, touch RegularFile out w')
    end.

(** ** The helpers *)

Definition ids : BuildIds := import_build build.

(** [getattr(settings, 'JINGO_MINIFY_USE_STATIC', True)] *)
Definition use_static : bool := Py.getattr (JINGO_MINIFY_USE_STATIC settings) true.

Definition get_media_root : string :=
  if use_static then STATIC_ROOT settings else MEDIA_ROOT settings.

Definition get_media_url : string :=
  if use_static then STATIC_URL settings else MEDIA_URL settings.

(** The system path of a file given relative to the static root; in debug
    mode with staticfiles, wherever Django finds it. *)
Definition get_path (path : string) : string :=
  let debug := Py.getattr (DEBUG settings) false in
  let static := use_static in
  let full_path := Py.path_join get_media_root path in
  if debug && static then
    match static_finder host path with
    | Some found_path => found_path
    | None => full_path
    end
  else full_path.

(** The prefixes that mark an item as a URL rather than a local file. *)
Definition url_prefixes : list string := ["//"; "http://"; "https://"].

Definition _get_item_path (item : string) : string :=
  if Py.startswith_any item url_prefixes then item
  else get_media_url ++ item.

Definition _get_mtime (item : string) : M Z :=
  if Py.startswith_any item url_prefixes then
    let* now := time_time in
    ret (Py.int now)
  else
    let* mtime := os_path_getmtime (get_path item) in
    ret (Py.int mtime).

(** [wrapping] is the tag with a hole for the path. *)
Definition _build_html (items : list string) (wrapping : string -> string) : string :=
  Py.join Py.nl (map (fun item => wrapping (_get_item_path item)) items).

(** [settings.MINIFY_BUNDLES[kind][bundle]] *)
Definition bundle_sources (kind bundle : string) : M (list string) :=
  let* bundles := attr "MINIFY_BUNDLES" (MINIFY_BUNDLES settings) in
  let* of_kind := subscript bundles kind in
  subscript of_kind bundle.

(** The build id of a minified bundle: the global one for its kind unless
    [BUNDLE_HASHES] has an entry for the bundle. *)
Definition bundle_build_id (kind bundle global_id : string) : string :=
  let build_id := global_id in
  let bundle_full := kind ++ ":" ++ bundle in
  match BUNDLE_HASHES ids !! bundle_full with
  | Some h => h
  | None => build_id
  end.

(** The value of [items] in [js] once the [if debug] statement has run. *)
Definition js_items (bundle : string) (debug : bool) : M (list string) :=
  if debug then
    let* sources := bundle_sources "js" bundle in
    mapM (fun item =>
            let* mtime := _get_mtime item in
            ret (item ++ "?build=" ++ Py.str mtime))
         sources
  else
    let build_id := bundle_build_id "js" bundle (BUILD_ID_JS ids) in
    ret ["js/" ++ bundle ++ "-min.js?build=" ++ build_id].

(** The script tag around a path: [src], then [defer] and [async] when
    asked for, separated by spaces. *)
Definition script_tag (defer async : bool) (src : string) : string :=
  let src_attr := "src=" ++ Py.dq ++ src ++ Py.dq in
  let attrs :=
    ([src_attr]
       ++ (if defer then ["defer"] else [])
       ++ (if async then ["async"] else []))%list in
  "<script " ++ Py.join " " attrs ++ "></script>".

Definition js (bundle : string) (debug defer async : bool) : M string :=
  let* items := js_items bundle debug in
  ret (_build_html items (script_tag defer async)).

(** [try: os.makedirs(path)], swallowing [OSError] with [errno == EEXIST]
    and re-raising any other. *)
Definition ensure_path_exists (path : string) : M unit :=
  fun w =>
    match os_makedirs path w with
    | (Raise (OSError errno), w') =>
        if negb (Z.eqb errno EEXIST) then (Raise (OSError errno), w')
        else (Ok tt, w')
    | outcome => outcome
    end.

(** The test guarding recompilation: [not updated_css or updated_src > updated_css]. *)
Definition uncompiled_is_newer (updated_src updated_css : Q) : bool :=
  Py.is_zero updated_css || Py.gt updated_src updated_css.

(** The body of the [if] in [compile_css]: make sure the destination
    directory exists, then run the compiler that goes with the extension,
    its output going to [path_dst]. *)
Definition recompile (item path_src path_dst : string) : M unit :=
  ensure_path_exists (Py.dirname path_dst) >>
  if Py.endswith item ".less" then
    open_w path_dst >>
    let* less_bin := attr "LESS_BIN" (LESS_BIN settings) in
    subprocess_Popen [less_bin; path_src] path_dst
  else if Py.endswith_any item [".sass"; ".scss"] then
    open_w path_dst >>
    let* sass_bin := attr "SASS_BIN" (SASS_BIN settings) in
    subprocess_Popen [sass_bin; path_src] path_dst
  else if Py.endswith item ".styl" then
    let* stylus_bin := attr "STYLUS_BIN" (STYLUS_BIN settings) in
    subprocess_call_shell
      (stylus_bin ++ " --include-css --include " ++ Py.dirname path_src
         ++ " < " ++ path_src ++ " > " ++ path_dst)
      path_dst
  else ret tt.

Definition compile_css (item : string) : M unit :=
  let path_src := get_path item in
  let path_dst := get_path (item ++ ".css") in
  let* updated_src := os_path_getmtime (get_path item) in
  let* dst_exists := os_path_exists path_dst in
  let* updated_css := (if dst_exists then os_path_getmtime path_dst else ret 0%Q) in
  if uncompiled_is_newer updated_src updated_css then
    recompile item path_src path_dst
  else ret tt.

(** The [media] argument of [css]: the default [False], [None], or a string. *)
Inductive MediaArg : Type :=
| MediaFalse
| MediaNone
| MediaStr (s : string).

Definition truthy (media : MediaArg) : bool :=
  match media with
  | MediaStr s => negb (String.eqb s "")
  | _ => false
  end.

Definition media_text (media : MediaArg) : string :=
  match media with
  | MediaStr s => s
  | MediaFalse => "False"
  | MediaNone => "None"
  end.

(** [items.append(a, b)]: [list.append] takes one argument, so the call
    raises instead of appending. *)
Definition list_append_2 {A} (items : list A) (a b : string) : M (list A) :=
  raise (TypeError "append() takes exactly one argument (2 given)").

Definition needs_compiling (item : string) : bool :=
  (Py.endswith item ".less" && Py.getattr (LESS_PREPROCESS settings) false)
  || Py.endswith_any item [".sass"; ".scss"; ".styl"].

(** The [for item in ...] loop of [css] in debug mode; [items] is the list
    built so far. *)
Fixpoint css_classify (sources : list string) (items : list (string * string))
  : M (list (string * string)) :=
  match sources with
  | [] => ret items
  | item :: rest =>
      if needs_compiling item then
        compile_css item >>
        let* items := list_append_2 items (item ++ ".css") "stylesheet" in
        css_classify rest items
      else if Py.endswith item ".less" then
        css_classify rest (items ++ [(item, "stylesheet/less")])%list
      else
        css_classify rest (items ++ [(item, "stylesheet")])%list
  end.

(** The value of [items] in [css] once the [if debug] statement has run:
    pairs of a path with its build token and a [rel] attribute. *)
Definition css_items (bundle : string) (debug : bool) : M (list (string * string)) :=
  if debug then
    let* sources := bundle_sources "css" bundle in
    let* items := css_classify sources [] in
    mapM (fun item : string * string =>
            let* mtime := _get_mtime (fst item) in
            ret (fst item ++ "?build=" ++ Py.str mtime, snd item))
         items
  else
    let build_id := bundle_build_id "css" bundle (BUILD_ID_CSS ids) in
    ret [("css/" ++ bundle ++ "-min.css?build=" ++ build_id, "stylesheet")].

Definition link_tag (media : string) (item : string * string) : string :=
  "<link rel=" ++ Py.dq ++ snd item ++ Py.dq
    ++ " media=" ++ Py.dq ++ media ++ Py.dq
    ++ " href=" ++ Py.dq ++ _get_item_path (fst item) ++ Py.dq ++ " />".

(** The media attribute [css] writes: the argument, or the configured
    default when the argument is falsy. *)
Definition css_media (media : MediaArg) : string :=
  if negb (truthy media) then
    Py.getattr (CSS_MEDIA_DEFAULT settings) "screen,projection,tv"
  else media_text media.

Definition css (bundle : string) (media : MediaArg) (debug : bool) : M string :=
  let media := css_media media in
  let* items := css_items bundle debug in
  ret (Py.join Py.nl (map (link_tag media) items)).

(** The context processor: the three build ids under their names. *)
Definition build_ids : gmap string string :=
  {[ "BUILD_ID_CSS" := BUILD_ID_CSS ids;
     "BUILD_ID_JS" := BUILD_ID_JS ids;
     "BUILD_ID_IMG" := BUILD_ID_IMG ids ]}.

End Helpers.

(** ** A sample site

    The configuration used by the closed examples below: the manifest of a
    small site served from [/static/], a host on which nothing goes wrong
    and whose clock starts at 1000, and a file system holding the sources. *)

Definition site_settings : Settings := {|
  JINGO_MINIFY_USE_STATIC := None;
  STATIC_ROOT := "/srv/static";
  MEDIA_ROOT := "/srv/media";
  STATIC_URL := "/static/";
  MEDIA_URL := "/media/";
  DEBUG := Some true;
  TEMPLATE_DEBUG := true;
  MINIFY_BUNDLES :=
    Some {[ "css" := {[ "main" := ["a.css"; "b.less"];
                        "plain" := ["a.css"; "c.less"] ]};
            "js" := {[ "app" := ["a.js"; "https://cdn.example/app.js"] ]} ]};
  CSS_MEDIA_DEFAULT := None;
  LESS_PREPROCESS := Some true;
  LESS_BIN := Some "lessc";
  SASS_BIN := Some "sass";
  STYLUS_BIN := Some "stylus"
|}.

Definition quiet_host : Host := {|
  clock := fun n => inject_Z (1000 + Z.of_nat n);
  static_finder := fun _ => None;
  makedirs_errno := fun _ => None;
  open_errno := fun _ => None;
  exec_errno := fun _ => None
|}.

Definition site_files : gmap string Node :=
  {[ "/srv/static" := mkNode Directory 1;
     "/srv/static/a.css" := mkNode RegularFile 5;
     "/srv/static/a.js" := mkNode RegularFile (7 # 2);
     "/srv/static/b.less" := mkNode RegularFile 9;
     "/srv/static/c.less" := mkNode RegularFile 11 ]}.

Definition site_world : World := mkWorld site_files 0 [].

(** A generated [build] module with a per-bundle hash for the js bundle. *)
Definition site_build : BuildModule := {|
  mod_BUILD_ID_CSS := Some "abc123";
  mod_BUILD_ID_JS := Some "def456";
  mod_BUILD_ID_IMG := Some "0a1b2c";
  mod_BUNDLE_HASHES := Some {[ "js:app" := "77fe" ]}
|}.

(** Variants of a configuration. *)
Definition with_css_media_default (d : option string) (s : Settings) : Settings := {|
  JINGO_MINIFY_USE_STATIC := JINGO_MINIFY_USE_STATIC s;
  STATIC_ROOT := STATIC_ROOT s;
  MEDIA_ROOT := MEDIA_ROOT s;
  STATIC_URL := STATIC_URL s;
  MEDIA_URL := MEDIA_URL s;
  DEBUG := DEBUG s;
  TEMPLATE_DEBUG := TEMPLATE_DEBUG s;
  MINIFY_BUNDLES := MINIFY_BUNDLES s;
  CSS_MEDIA_DEFAULT := d;
  LESS_PREPROCESS := LESS_PREPROCESS s;
  LESS_BIN := LESS_BIN s;
  SASS_BIN := SASS_BIN s;
  STYLUS_BIN := STYLUS_BIN s
|}.

Definition with_less_preprocess (b : option bool) (s : Settings) : Settings := {|
  JINGO_MINIFY_USE_STATIC := JINGO_MINIFY_USE_STATIC s;
  STATIC_ROOT := STATIC_ROOT s;
  MEDIA_ROOT := MEDIA_ROOT s;
  STATIC_URL := STATIC_URL s;
  MEDIA_URL := MEDIA_URL s;
  DEBUG := DEBUG s;
  TEMPLATE_DEBUG := TEMPLATE_DEBUG s;
  MINIFY_BUNDLES := MINIFY_BUNDLES s;
  CSS_MEDIA_DEFAULT := CSS_MEDIA_DEFAULT s;
  LESS_PREPROCESS := b;
  LESS_BIN := LESS_BIN s;
  SASS_BIN := SASS_BIN s;
  STYLUS_BIN := STYLUS_BIN s
|}.

(** The site with [CSS_MEDIA_DEFAULT = ''], and the site that leaves
    [.less] files to the browser. *)
Definition blank_media_settings : Settings :=
  with_css_media_default (Some "") site_settings.

Definition client_less_settings : Settings :=
  with_less_preprocess None site_settings.


(** A host that refuses to create directories, with [EACCES]. *)
Definition EACCES : Z := 13.

Definition locked_host : Host := {|
  clock := clock quiet_host;
  static_finder := static_finder quiet_host;
  makedirs_errno := fun _ => Some EACCES;
  open_errno := open_errno quiet_host;
  exec_errno := exec_errno quiet_host
|}.




(** ** Vocabulary of the statements *)

(** How much has happened in a world: clock readings plus processes
    started. Every write reads the clock. *)
Definition activity (w : World) : nat := ticks w + length (trace w).

(** The value [compile_css] computes for [updated_css]: the mtime of the
    destination, or 0 when it does not exist. *)
Definition updated_css_in (w : World) (path_dst : string) : Q :=
  match fs w !! path_dst with
  | Some n => st_mtime n
  | None => 0%Q
  end.

(** The destination counts as fresh for a source modified at [src_mtime]
    when it exists with a non-zero mtime that is not older. *)
Definition destination_is_fresh (src_mtime : Q) (dst : option Node) : Prop :=
  match dst with
  | Some n => ~ (st_mtime n == 0)%Q /\ (src_mtime <= st_mtime n)%Q
  | None => False
  end.

(** An item whose token can be computed in a file system: a URL, or a
    local item whose resolved path exists. *)
Definition stat_able (settings : Settings) (host : Host) (files : gmap string Node)
    (item : string) : Prop :=
  Py.startswith_any item url_prefixes = true
  \/ is_Some (files !! get_path settings host item).

(** An item written in one of the preprocessor languages. *)
Definition is_preprocessor (item : string) : bool :=
  Py.endswith_any item [".less"; ".sass"; ".scss"; ".styl"].

(** The message of the [TypeError] that [list.append] raises when called
    with two arguments. *)
Definition append_arity_error : Exn :=
  TypeError "append() takes exactly one argument (2 given)".

(** All that a step which only creates directories on the way to [path]
    may have done between [w] and [w']: every path is as it was, or was
    missing and is now a directory, [path] or one above it, stamped with
    a clock reading taken meanwhile. *)
Definition only_adds_directories (host : Host) (path : string) (w w' : World) : Prop :=
  trace w' = trace w
  /\ (ticks w <= ticks w')%nat
  /\ forall q,
       fs w' !! q = fs w !! q
       \/ (fs w !! q = None
           /\ In q (parents (String.length path) path ++ [path])%list
           /\ (q = path \/ (String.length q < String.length path)%nat)
           /\ exists k, (ticks w <= k)%nat
                        /\ fs w' !! q = Some (mkNode Directory (clock host k))).

(** The destination counts as stale when it does not exist, when its mtime
    is the 0 that also stands for a missing file, or when it is older than
    the source. *)
Definition destination_is_stale (src_mtime : Q) (dst : option Node) : Prop :=
  match dst with
  | Some n => (st_mtime n == 0)%Q \/ (st_mtime n < src_mtime)%Q
  | None => True
  end.

(** A host that never refuses to create a directory, to open a file for
    writing or to start a program. *)
Definition host_refuses_nothing (host : Host) : Prop :=
  forall p, makedirs_errno host p = None
            /\ open_errno host p = None
            /\ exec_errno host p = None.



(** ** More configurations and vocabulary *)

Definition with_minify_bundles
    (m : option (gmap string (gmap string (list string)))) (s : Settings) : Settings := {|
  JINGO_MINIFY_USE_STATIC := JINGO_MINIFY_USE_STATIC s;
  STATIC_ROOT := STATIC_ROOT s;
  MEDIA_ROOT := MEDIA_ROOT s;
  STATIC_URL := STATIC_URL s;
  MEDIA_URL := MEDIA_URL s;
  DEBUG := DEBUG s;
  TEMPLATE_DEBUG := TEMPLATE_DEBUG s;
  MINIFY_BUNDLES := m;
  CSS_MEDIA_DEFAULT := CSS_MEDIA_DEFAULT s;
  LESS_PREPROCESS := LESS_PREPROCESS s;
  LESS_BIN := LESS_BIN s;
  SASS_BIN := SASS_BIN s;
  STYLUS_BIN := STYLUS_BIN s
|}.

Definition with_less_bin (b : option string) (s : Settings) : Settings := {|
  JINGO_MINIFY_USE_STATIC := JINGO_MINIFY_USE_STATIC s;
  STATIC_ROOT := STATIC_ROOT s;
  MEDIA_ROOT := MEDIA_ROOT s;
  STATIC_URL := STATIC_URL s;
  MEDIA_URL := MEDIA_URL s;
  DEBUG := DEBUG s;
  TEMPLATE_DEBUG := TEMPLATE_DEBUG s;
  MINIFY_BUNDLES := MINIFY_BUNDLES s;
  CSS_MEDIA_DEFAULT := CSS_MEDIA_DEFAULT s;
  LESS_PREPROCESS := LESS_PREPROCESS s;
  LESS_BIN := b;
  SASS_BIN := SASS_BIN s;
  STYLUS_BIN := STYLUS_BIN s
|}.

Definition with_debug (d : option bool) (s : Settings) : Settings := {|
  JINGO_MINIFY_USE_STATIC := JINGO_MINIFY_USE_STATIC s;
  STATIC_ROOT := STATIC_ROOT s;
  MEDIA_ROOT := MEDIA_ROOT s;
  STATIC_URL := STATIC_URL s;
  MEDIA_URL := MEDIA_URL s;
  DEBUG := d;
  TEMPLATE_DEBUG := TEMPLATE_DEBUG s;
  MINIFY_BUNDLES := MINIFY_BUNDLES s;
  CSS_MEDIA_DEFAULT := CSS_MEDIA_DEFAULT s;
  LESS_PREPROCESS := LESS_PREPROCESS s;
  LESS_BIN := LESS_BIN s;
  SASS_BIN := SASS_BIN s;
  STYLUS_BIN := STYLUS_BIN s
|}.

(** The site without a manifest, with bundles that list nothing, with a
    manifest that also names files that are not there, without a LESS
    compiler, and outside Django's debug mode. *)
Definition unconfigured_settings : Settings := with_minify_bundles None site_settings.

Definition hollow_settings : Settings :=
  with_minify_bundles
    (Some {[ "css" := {[ "none" := [] ]}; "js" := {[ "none" := [] ]} ]})
    site_settings.

Definition stray_settings : Settings :=
  with_minify_bundles
    (Some {[ "css" := {[ "broken" := ["a.css"; "gone.css"; "c.less"];
                         "themed" := ["a.css"; "gone.scss"] ]};
            "js" := {[ "broken" := ["https://cdn.example/app.js"; "gone.js"; "a.js"] ]} ]})
    (with_less_preprocess None site_settings).

Definition no_lessc_settings : Settings := with_less_bin None site_settings.

Definition deployed_settings : Settings := with_debug (Some false) site_settings.

(** A [build] module that defines the ids but not [BUNDLE_HASHES]. *)
Definition partial_build : BuildModule := {|
  mod_BUILD_ID_CSS := Some "abc123";
  mod_BUILD_ID_JS := Some "def456";
  mod_BUILD_ID_IMG := Some "0a1b2c";
  mod_BUNDLE_HASHES := None
|}.

(** A host whose staticfiles lookup finds the sources of an application. *)
Definition app_host : Host := {|
  clock := clock quiet_host;
  static_finder := fun p => if String.eqb p "b.less" then Some "/app/static/b.less" else None;
  makedirs_errno := makedirs_errno quiet_host;
  open_errno := open_errno quiet_host;
  exec_errno := exec_errno quiet_host
|}.

(** The site with the source of [b.less] kept in an application's static
    directory rather than under the static root. *)
Definition app_world : World :=
  mkWorld {[ "/srv/static" := mkNode Directory 1;
             "/app/static/b.less" := mkNode RegularFile 9 ]} 0 [].

(** A fresh checkout: the sources live in an application's static
    directory, which the staticfiles lookup knows, and nothing has been
    collected under [/srv] yet. *)
Definition checkout_world : World :=
  mkWorld {[ "/" := mkNode Directory 1;
             "/app" := mkNode Directory 2;
             "/app/static" := mkNode Directory 3;
             "/app/static/notes.txt" := mkNode RegularFile 4 ]} 0 [].

Definition checkout_host : Host := {|
  clock := clock quiet_host;
  static_finder :=
    fun p => if String.eqb p "notes.txt" then Some "/app/static/notes.txt" else None;
  makedirs_errno := makedirs_errno quiet_host;
  open_errno := open_errno quiet_host;
  exec_errno := exec_errno quiet_host
|}.

(** A host on which no program can be started ([ENOENT]). *)
Definition no_exec_host : Host := {|
  clock := clock quiet_host;
  static_finder := static_finder quiet_host;
  makedirs_errno := makedirs_errno quiet_host;
  open_errno := open_errno quiet_host;
  exec_errno := fun _ => Some ENOENT
|}.


(** How many times rendering [sources] in debug mode reads the clock: once
    per URL item. *)
Fixpoint clock_reads (sources : list string) : nat :=
  match sources with
  | [] => 0
  | item :: rest =>
      (if Py.startswith_any item url_prefixes then 1 else 0) + clock_reads rest
  end.

(** [t] is a debug token of [item]: for a URL, the integer part of a clock
    reading taken at or after the [from]-th one; for a local item, the
    integer part of the mtime of the file it resolves to. *)
Definition debug_token (settings : Settings) (host : Host) (files : gmap string Node)
    (from : nat) (item : string) (t : Z) : Prop :=
  if Py.startswith_any item url_prefixes
  then exists k, (from <= k)%nat /\ t = Py.int (clock host k)
  else exists n, files !! get_path settings host item = Some n /\ t = Py.int (st_mtime n).

(** The [rel] attribute of an item that [css] does not compile. *)
Definition rel_of (item : string) : string :=
  if Py.endswith item ".less" then "stylesheet/less" else "stylesheet".

(** * Properties *)

(** ** The string and path functions on samples *)

Example dirname_nested : Py.dirname "/srv/static/css/site.less.css" = "/srv/static/css".
Proof. reflexivity. Qed.

Example dirname_bare : Py.dirname "site.less.css" = "".
Proof. reflexivity. Qed.

Example dirname_root : Py.dirname "//a" = "//".
Proof. reflexivity. Qed.

Example path_join_glue :
  Py.path_join "/srv/static" "css/a.css" = "/srv/static/css/a.css"
  /\ Py.path_join "/srv/static/" "css/a.css" = "/srv/static/css/a.css"
  /\ Py.path_join "/srv/static" "/abs/a.css" = "/abs/a.css".
Proof. repeat split; reflexivity. Qed.

Example endswith_samples :
  Py.endswith "foo.less" ".less" = true
  /\ Py.endswith "less" ".less" = false
  /\ Py.endswith_any "a.scss" [".sass"; ".scss"; ".styl"] = true.
Proof. repeat split; reflexivity. Qed.

Example int_truncates :
  Py.int (7 # 2) = 3%Z /\ Py.int (-7 # 2) = (-3)%Z /\ Py.str 1700000000 = "1700000000".
Proof. repeat split; reflexivity. Qed.

(** ** The helpers on the sample site *)

Example js_production_with_bundle_hash :
  js site_settings (Some site_build) quiet_host "app" false true false site_world
  = (Ok ("<script src=" ++ Py.dq ++ "/static/js/app-min.js?build=77fe" ++ Py.dq
           ++ " defer></script>"), site_world).
Proof. reflexivity. Qed.

Example css_production_with_build_id :
  css site_settings (Some site_build) quiet_host "main" MediaFalse false site_world
  = (Ok ("<link rel=" ++ Py.dq ++ "stylesheet" ++ Py.dq
           ++ " media=" ++ Py.dq ++ "screen,projection,tv" ++ Py.dq
           ++ " href=" ++ Py.dq ++ "/static/css/main-min.css?build=abc123" ++ Py.dq
           ++ " />"), site_world).
Proof. reflexivity. Qed.

Example css_debug_client_side_less :
  fst (css client_less_settings None quiet_host "plain" (MediaStr "print") true site_world)
  = Ok ("<link rel=" ++ Py.dq ++ "stylesheet" ++ Py.dq
          ++ " media=" ++ Py.dq ++ "print" ++ Py.dq
          ++ " href=" ++ Py.dq ++ "/static/a.css?build=5" ++ Py.dq ++ " />"
          ++ Py.nl
          ++ "<link rel=" ++ Py.dq ++ "stylesheet/less" ++ Py.dq
          ++ " media=" ++ Py.dq ++ "print" ++ Py.dq
          ++ " href=" ++ Py.dq ++ "/static/c.less?build=11" ++ Py.dq ++ " />").
Proof. vm_compute. reflexivity. Qed.

Example makedirs_creates_missing_parents :
  forall w', os_makedirs quiet_host "/srv/static/css" checkout_world = (Ok tt, w') ->
    fs w' !! "/srv" = Some (mkNode Directory 1000)
    /\ fs w' !! "/srv/static" = Some (mkNode Directory 1001)
    /\ fs w' !! "/srv/static/css" = Some (mkNode Directory 1002)
    /\ fs w' !! "/" = Some (mkNode Directory 1)
    /\ ticks w' = 3%nat.
Proof. intros w' [= <-]. repeat split; vm_compute; reflexivity. Qed.

Example js_debug_missing_file :
  js site_settings None quiet_host "app" true false false (mkWorld ∅ 0 [])
  = (Raise (OSError ENOENT), mkWorld ∅ 0 []).
Proof. reflexivity. Qed.

Example sass_is_compiled_whatever_the_less_setting :
  needs_compiling client_less_settings "theme.scss" = true
  /\ needs_compiling client_less_settings "c.less" = false
  /\ needs_compiling site_settings "c.less" = true.
Proof. repeat split; reflexivity. Qed.



(** ** Reasoning about the effect monad *)

Lemma bind_ok {A B} (c : M A) (k : A -> M B) w a w' :
  c w = (Ok a, w') -> bind c k w = k a w'.
Proof. intros H. unfold bind. now rewrite H. Qed.

Lemma bind_raise {A B} (c : M A) (k : A -> M B) w e w' :
  c w = (Raise e, w') -> bind c k w = (Raise e, w').
Proof. intros H. unfold bind. now rewrite H. Qed.

Lemma bind_ret {A B} (a : A) (k : A -> M B) w : bind (ret a) k w = k a w.
Proof. reflexivity. Qed.

(** ** Paths of minified bundles are local *)

(** A character that does not occur in [p] cannot complete [p]: appending
    text that starts with it does not change whether [p] is a prefix. *)
Lemma prefix_append_foreign (p s r : string) (c : ascii) :
  (forall a, In a (list_ascii_of_string p) -> a <> c) ->
  String.prefix p (s ++ String c r) = String.prefix p s.
Proof.
  revert s. induction p as [|a p IH]; intros s Hp.
  - now destruct s.
  - destruct s as [|b s]; simpl.
    + destruct (ascii_dec a c) as [->|]; [|reflexivity].
      exfalso. apply (Hp c); [now left | reflexivity].
    + destruct (ascii_dec a b); [|reflexivity].
      apply IH. intros a' Ha'. apply Hp. now right.
Qed.

(** Appending the query string leaves the local/remote status of an item
    unchanged. *)
Lemma startswith_url_build_query (item token : string) :
  Py.startswith_any (item ++ "?build=" ++ token) url_prefixes
  = Py.startswith_any item url_prefixes.
Proof.
  unfold Py.startswith_any, url_prefixes, Py.startswith. simpl existsb.
  change ("?build=" ++ token) with (String "?" ("build=" ++ token)).
  rewrite !prefix_append_foreign; [reflexivity | | |];
    intros a Ha; simpl in Ha;
    repeat (destruct Ha as [<- | Ha]; [discriminate|]); contradiction.
Qed.

Lemma minified_js_is_local (bundle build_id : string) :
  Py.startswith_any ("js/" ++ bundle ++ "-min.js?build=" ++ build_id) url_prefixes = false.
Proof. reflexivity. Qed.

Lemma minified_css_is_local (bundle build_id : string) :
  Py.startswith_any ("css/" ++ bundle ++ "-min.css?build=" ++ build_id) url_prefixes = false.
Proof. reflexivity. Qed.

(** ** Production mode *)

Lemma import_build_absent : import_build None = mkBuildIds "dev" "dev" "dev" ∅.
Proof. reflexivity. Qed.

Lemma bundle_build_id_absent (kind bundle global_id : string) :
  bundle_build_id None kind bundle global_id = global_id.
Proof. unfold bundle_build_id. simpl. now rewrite lookup_empty. Qed.

Lemma js_production
    (settings : Settings) (build : option BuildModule) (host : Host)
    (bundle : string) (defer async : bool) (w : World) :
  js settings build host bundle false defer async w
  = (Ok (script_tag defer async
           (get_media_url settings ++ "js/" ++ bundle ++ "-min.js?build="
              ++ bundle_build_id build "js" bundle (BUILD_ID_JS (ids build)))), w).
Proof.
  unfold js, js_items. rewrite bind_ret. unfold _build_html, ret. simpl map.
  unfold Py.join, _get_item_path. now rewrite minified_js_is_local.
Qed.

Lemma link_tag_minified (settings : Settings) (media bundle build_id : string) :
  link_tag settings media ("css/" ++ bundle ++ "-min.css?build=" ++ build_id, "stylesheet")
  = "<link rel=" ++ Py.dq ++ "stylesheet" ++ Py.dq
      ++ " media=" ++ Py.dq ++ media ++ Py.dq
      ++ " href=" ++ Py.dq
      ++ (get_media_url settings ++ "css/" ++ bundle ++ "-min.css?build=" ++ build_id)
      ++ Py.dq ++ " />".
Proof.
  unfold link_tag, _get_item_path. simpl fst. simpl snd.
  now rewrite minified_css_is_local.
Qed.

Lemma css_production
    (settings : Settings) (build : option BuildModule) (host : Host)
    (bundle : string) (media : MediaArg) (w : World) :
  css settings build host bundle media false w
  = (Ok (link_tag settings (css_media settings media)
           ("css/" ++ bundle ++ "-min.css?build="
              ++ bundle_build_id build "css" bundle (BUILD_ID_CSS (ids build)),
            "stylesheet")), w).
Proof. unfold css, css_items. rewrite bind_ret. reflexivity. Qed.

(** C1. In production mode (debug false) both helpers emit exactly one
    reference, [<kind>/<bundle>-min.<kind>?build=<token>], served from the
    configured URL prefix. The token is the entry of [BUNDLE_HASHES] under
    [<kind>:<bundle>] when there is one, the build id of the kind otherwise,
    and ["dev"] when no [build] module could be imported. Nothing is read
    from the manifest, so this holds for every bundle name, listed or not. *)
Theorem production_emits_one_reference
    (settings : Settings) (build : option BuildModule) (host : Host)
    (bundle : string) (defer async : bool) (media : MediaArg) (w : World) :
  exists token_js token_css : string,
    js_items settings build host bundle false w
      = (Ok ["js/" ++ bundle ++ "-min.js?build=" ++ token_js], w)
    /\ js settings build host bundle false defer async w
       = (Ok (script_tag defer async
                (get_media_url settings ++ "js/" ++ bundle ++ "-min.js?build=" ++ token_js)), w)
    /\ css_items settings build host bundle false w
       = (Ok [("css/" ++ bundle ++ "-min.css?build=" ++ token_css, "stylesheet")], w)
    /\ css settings build host bundle media false w
       = (Ok (link_tag settings (css_media settings media)
                ("css/" ++ bundle ++ "-min.css?build=" ++ token_css, "stylesheet")), w)
    /\ link_tag settings (css_media settings media)
         ("css/" ++ bundle ++ "-min.css?build=" ++ token_css, "stylesheet")
       = "<link rel=" ++ Py.dq ++ "stylesheet" ++ Py.dq
           ++ " media=" ++ Py.dq ++ css_media settings media ++ Py.dq
           ++ " href=" ++ Py.dq
           ++ (get_media_url settings ++ "css/" ++ bundle ++ "-min.css?build=" ++ token_css)
           ++ Py.dq ++ " />"
    /\ (forall h, BUNDLE_HASHES (ids build) !! ("js:" ++ bundle) = Some h -> token_js = h)
    /\ (BUNDLE_HASHES (ids build) !! ("js:" ++ bundle) = None -> token_js = BUILD_ID_JS (ids build))
    /\ (forall h, BUNDLE_HASHES (ids build) !! ("css:" ++ bundle) = Some h -> token_css = h)
    /\ (BUNDLE_HASHES (ids build) !! ("css:" ++ bundle) = None -> token_css = BUILD_ID_CSS (ids build))
    /\ (build = None -> token_js = "dev" /\ token_css = "dev").
Proof.
  exists (bundle_build_id build "js" bundle (BUILD_ID_JS (ids build))),
         (bundle_build_id build "css" bundle (BUILD_ID_CSS (ids build))).
  split; [reflexivity|].
  split; [apply js_production|].
  split; [reflexivity|].
  split; [apply css_production|].
  split; [apply link_tag_minified|].
  unfold bundle_build_id.
  change ("js" ++ ":" ++ bundle) with ("js:" ++ bundle).
  change ("css" ++ ":" ++ bundle) with ("css:" ++ bundle).
  split; [intros h Hh; now rewrite Hh|].
  split; [intros Hh; now rewrite Hh|].
  split; [intros h Hh; now rewrite Hh|].
  split; [intros Hh; now rewrite Hh|].
  intros ->. simpl. now rewrite !lookup_empty.
Qed.

(** C9. Production-mode output is a function of the bundle name, the
    options, the build data and the configured URL prefix and default
    media alone: on any two hosts, in any two states of the file system,
    clock and process table, [js] and [css] return the same markup, and
    each leaves the state it ran in untouched (no file is read or written,
    the clock is not read, no process is started). *)
Theorem production_is_deterministic
    (settings : Settings) (build : option BuildModule) (host1 host2 : Host)
    (bundle : string) (defer async : bool) (media : MediaArg) (w1 w2 : World) :
  js settings build host1 bundle false defer async w1
    = (fst (js settings build host2 bundle false defer async w2), w1)
  /\ css settings build host1 bundle media false w1
     = (fst (css settings build host2 bundle media false w2), w1)
  /\ is_ok (fst (js settings build host1 bundle false defer async w1)) = true
  /\ is_ok (fst (css settings build host1 bundle media false w1)) = true.
Proof.
  rewrite !js_production, !css_production. repeat split.
Qed.

(** ** Bundles missing from the manifest *)

Lemma bundle_sources_missing
    (settings : Settings) (kind bundle : string) (w : World)
    (bundles : gmap string (gmap string (list string)))
    (of_kind : gmap string (list string)) :
  MINIFY_BUNDLES settings = Some bundles ->
  bundles !! kind = Some of_kind ->
  of_kind !! bundle = None ->
  bundle_sources settings kind bundle w = (Raise (KeyError bundle), w).
Proof.
  intros Hm Hk Hb. unfold bundle_sources, attr, subscript, bind, ret, raise.
  now rewrite Hm, Hk, Hb.
Qed.

Lemma bundle_sources_present
    (settings : Settings) (kind bundle : string) (w : World)
    (bundles : gmap string (gmap string (list string)))
    (of_kind : gmap string (list string)) (sources : list string) :
  MINIFY_BUNDLES settings = Some bundles ->
  bundles !! kind = Some of_kind ->
  of_kind !! bundle = Some sources ->
  bundle_sources settings kind bundle w = (Ok sources, w).
Proof.
  intros Hm Hk Hb. unfold bundle_sources, attr, subscript, bind, ret, raise.
  now rewrite Hm, Hk, Hb.
Qed.

(** C6. In debug mode, where the manifest is consulted, a bundle name that
    the manifest does not list under the requested kind makes the helper
    fail: the lookup raises [KeyError] carrying the missing name, before
    any file is touched, and no markup is returned. ([KeyError] is the
    concrete form the configuration error takes in the Python source.) *)
Theorem missing_bundle_raises
    (settings : Settings) (build : option BuildModule) (host : Host)
    (bundle : string) (defer async : bool) (media : MediaArg) (w : World)
    (bundles : gmap string (gmap string (list string))) :
  MINIFY_BUNDLES settings = Some bundles ->
  (forall of_js, bundles !! "js" = Some of_js -> of_js !! bundle = None ->
     js settings build host bundle true defer async w = (Raise (KeyError bundle), w))
  /\ (forall of_css, bundles !! "css" = Some of_css -> of_css !! bundle = None ->
       css settings build host bundle media true w = (Raise (KeyError bundle), w)).
Proof.
  intros Hm. split; intros of_kind Hk Hb.
  - unfold js, js_items.
    apply bind_raise, bind_raise. now apply (bundle_sources_missing _ _ _ _ bundles of_kind).
  - unfold css, css_items.
    apply bind_raise, bind_raise. now apply (bundle_sources_missing _ _ _ _ bundles of_kind).
Qed.

Lemma missing_bundle_raises_witness :
  MINIFY_BUNDLES site_settings
    = Some {[ "css" := {[ "main" := ["a.css"; "b.less"];
                          "plain" := ["a.css"; "c.less"] ]};
              "js" := {[ "app" := ["a.js"; "https://cdn.example/app.js"] ]} ]}
  /\ js site_settings None quiet_host "admin" true false false site_world
     = (Raise (KeyError "admin"), site_world)
  /\ css site_settings None quiet_host "admin" MediaFalse true site_world
     = (Raise (KeyError "admin"), site_world).
Proof.
  split; [reflexivity|].
  destruct (missing_bundle_raises site_settings None quiet_host "admin" false false
              MediaFalse site_world _ eq_refl) as [Hjs Hcss].
  split.
  - apply (Hjs {[ "app" := ["a.js"; "https://cdn.example/app.js"] ]}); reflexivity.
  - apply (Hcss {[ "main" := ["a.css"; "b.less"]; "plain" := ["a.css"; "c.less"] ]});
      reflexivity.
Defined.

(** ** The media attribute *)

Lemma css_renders_items
    (settings : Settings) (build : option BuildModule) (host : Host)
    (bundle : string) (media : MediaArg) (debug : bool) (w w' : World)
    (items : list (string * string)) :
  css_items settings build host bundle debug w = (Ok items, w') ->
  css settings build host bundle media debug w
  = (Ok (Py.join Py.nl (map (link_tag settings (css_media settings media)) items)), w').
Proof. intros H. unfold css. now rewrite (bind_ok _ _ _ _ _ H). Qed.

(** C10 (amended). The media attribute of every emitted link is
    [css_media]: whenever the [media] argument is falsy, the empty string
    included, it is [CSS_MEDIA_DEFAULT], or ["screen,projection,tv"] when
    that setting is absent. An emitted link therefore has a non-empty media
    attribute unless [CSS_MEDIA_DEFAULT] is itself set to the empty
    string. *)
Theorem css_media_defaults_when_falsy
    (settings : Settings) (build : option BuildModule) (host : Host)
    (bundle : string) (media : MediaArg) (debug : bool) (w w' : World)
    (items : list (string * string)) :
  (truthy media = false ->
     css_media settings media
     = Py.getattr (CSS_MEDIA_DEFAULT settings) "screen,projection,tv")
  /\ css_media settings (MediaStr "")
     = Py.getattr (CSS_MEDIA_DEFAULT settings) "screen,projection,tv"
  /\ (CSS_MEDIA_DEFAULT settings = None ->
      css_media settings (MediaStr "") = "screen,projection,tv")
  /\ (CSS_MEDIA_DEFAULT settings <> Some "" -> css_media settings media <> "")
  /\ (css_items settings build host bundle debug w = (Ok items, w') ->
      css settings build host bundle media debug w
      = (Ok (Py.join Py.nl (map (link_tag settings (css_media settings media)) items)), w')).
Proof.
  split; [|split; [|split; [|split]]].
  - intros H. unfold css_media. now rewrite H.
  - reflexivity.
  - intros H. unfold css_media. simpl. now rewrite H.
  - intros Hd. unfold css_media.
    destruct media as [| |s]; simpl.
    1,2: destruct (CSS_MEDIA_DEFAULT settings) as [d|]; simpl;
         [intros ->; now apply Hd | discriminate].
    destruct (String.eqb_spec s ""); simpl.
    + destruct (CSS_MEDIA_DEFAULT settings) as [d|]; simpl;
        [intros ->; now apply Hd | discriminate].
    + assumption.
  - apply css_renders_items.
Qed.

Lemma css_media_defaults_when_falsy_witness :
  truthy (MediaStr "") = false
  /\ CSS_MEDIA_DEFAULT site_settings = None
  /\ CSS_MEDIA_DEFAULT site_settings <> Some ""
  /\ css_media site_settings (MediaStr "") = "screen,projection,tv"
  /\ css_media site_settings (MediaStr "") <> "".
Proof.
  destruct (css_media_defaults_when_falsy site_settings None quiet_host "main"
              (MediaStr "") false site_world site_world
              [("css/main-min.css?build=dev", "stylesheet")])
    as (_ & _ & Hdefault & Hnonempty & _).
  split; [reflexivity|]. split; [reflexivity|]. split; [discriminate|].
  split; [apply Hdefault; reflexivity | apply Hnonempty; discriminate].
Defined.

(** With [CSS_MEDIA_DEFAULT = ''] and an empty [media] argument the link is
    emitted with an empty media attribute. *)
Lemma css_empty_default_gives_empty_media :
  css blank_media_settings None quiet_host "main" (MediaStr "") false site_world
  = (Ok ("<link rel=" ++ Py.dq ++ "stylesheet" ++ Py.dq
           ++ " media=" ++ Py.dq ++ "" ++ Py.dq
           ++ " href=" ++ Py.dq ++ "/static/css/main-min.css?build=dev" ++ Py.dq ++ " />"),
     site_world)
  /\ css_media blank_media_settings (MediaStr "") = "".
Proof. split; reflexivity. Qed.

(** ** Debug mode: tokens and URLs *)

Lemma startswith_any_url_prefixes (item : string) :
  Py.startswith_any item url_prefixes = true
  <-> (Py.startswith item "//" = true \/ Py.startswith item "http://" = true
       \/ Py.startswith item "https://" = true).
Proof.
  unfold Py.startswith_any, url_prefixes. simpl existsb.
  rewrite !orb_true_iff. intuition discriminate.
Qed.

Lemma _get_mtime_remote (settings : Settings) (host : Host) (item : string) (w : World) :
  Py.startswith_any item url_prefixes = true ->
  _get_mtime settings host item w
  = (Ok (Py.int (clock host (ticks w))), mkWorld (fs w) (S (ticks w)) (trace w)).
Proof. intros H. unfold _get_mtime. now rewrite H. Qed.

Lemma _get_mtime_local
    (settings : Settings) (host : Host) (item : string) (w : World) (n : Node) :
  Py.startswith_any item url_prefixes = false ->
  fs w !! get_path settings host item = Some n ->
  _get_mtime settings host item w = (Ok (Py.int (st_mtime n)), w).
Proof.
  intros H Hn. unfold _get_mtime. rewrite H.
  unfold bind, os_path_getmtime. now rewrite Hn.
Qed.

Lemma _get_mtime_missing
    (settings : Settings) (host : Host) (item : string) (w : World) :
  Py.startswith_any item url_prefixes = false ->
  fs w !! get_path settings host item = None ->
  _get_mtime settings host item w = (Raise (OSError ENOENT), w).
Proof.
  intros H Hn. unfold _get_mtime. rewrite H.
  unfold bind, os_path_getmtime. now rewrite Hn.
Qed.

(** C3. The debug-mode token and URL of a source item. An item that starts
    with [//], [http://] or [https://] gets the current clock reading,
    truncated to an integer, as its token (the clock is read once and
    nothing else changes), and its URL is the item itself, with or without
    the build query, never prefixed. Any other item gets the truncated
    mtime of the file it resolves to, and its URL is the configured media
    URL followed by the item (and the build query). *)
Theorem debug_token_and_url
    (settings : Settings) (host : Host) (item token : string) (w : World) :
  ((Py.startswith item "//" = true \/ Py.startswith item "http://" = true
    \/ Py.startswith item "https://" = true) ->
     _get_mtime settings host item w
     = (Ok (Py.int (clock host (ticks w))), mkWorld (fs w) (S (ticks w)) (trace w))
     /\ _get_item_path settings item = item
     /\ _get_item_path settings (item ++ "?build=" ++ token) = item ++ "?build=" ++ token)
  /\ (Py.startswith item "//" = false -> Py.startswith item "http://" = false ->
      Py.startswith item "https://" = false ->
      (forall n : Node, fs w !! get_path settings host item = Some n ->
         _get_mtime settings host item w = (Ok (Py.int (st_mtime n)), w))
      /\ _get_item_path settings item = get_media_url settings ++ item
      /\ _get_item_path settings (item ++ "?build=" ++ token)
         = get_media_url settings ++ (item ++ "?build=" ++ token)).
Proof.
  split.
  - intros H. apply startswith_any_url_prefixes in H.
    split; [now apply _get_mtime_remote|].
    unfold _get_item_path. now rewrite startswith_url_build_query, H.
  - intros H1 H2 H3.
    assert (H : Py.startswith_any item url_prefixes = false).
    { unfold Py.startswith_any, url_prefixes. simpl. now rewrite H1, H2, H3. }
    split; [intros n Hn; now apply _get_mtime_local|].
    unfold _get_item_path. now rewrite startswith_url_build_query, H.
Qed.

Lemma debug_token_and_url_witness :
  Py.startswith "https://cdn.example/app.js" "https://" = true
  /\ _get_mtime site_settings quiet_host "https://cdn.example/app.js" site_world
     = (Ok 1000%Z, mkWorld site_files 1 [])
  /\ _get_item_path site_settings ("https://cdn.example/app.js" ++ "?build=" ++ "1000")
     = "https://cdn.example/app.js?build=1000"
  /\ site_files !! get_path site_settings quiet_host "a.js" = Some (mkNode RegularFile (7 # 2))
  /\ _get_mtime site_settings quiet_host "a.js" site_world = (Ok 3%Z, site_world)
  /\ _get_item_path site_settings ("a.js" ++ "?build=" ++ "3") = "/static/a.js?build=3".
Proof.
  destruct (debug_token_and_url site_settings quiet_host
              "https://cdn.example/app.js" "1000" site_world) as [Hremote _].
  destruct (debug_token_and_url site_settings quiet_host "a.js" "3" site_world)
    as [_ Hlocal].
  destruct Hremote as (Ht & _ & Hu); [right; right; reflexivity|].
  destruct Hlocal as (Hm & _ & Hl); [reflexivity..|].
  split; [reflexivity|]. split; [exact Ht|]. split; [exact Hu|].
  split; [reflexivity|]. split; [|exact Hl].
  exact (Hm (mkNode RegularFile (7 # 2)) eq_refl).
Defined.

(** ** Debug mode: one reference per item, in manifest order *)

Section DebugReferences.

Context (settings : Settings) (build : option BuildModule) (host : Host).

(** Computing a token reads the world but changes neither the files nor
    the process table. *)
Lemma _get_mtime_frame (item : string) (w w' : World) (r : Result Z) :
  _get_mtime settings host item w = (r, w') ->
  fs w' = fs w /\ trace w' = trace w.
Proof.
  unfold _get_mtime, bind, time_time, os_path_getmtime, ret.
  destruct (Py.startswith_any item url_prefixes).
  - intros [= <- <-]. now split.
  - destruct (fs w !! get_path settings host item); intros [= <- <-]; now split.
Qed.

Lemma _get_mtime_stat_able (item : string) (w : World) :
  stat_able settings host (fs w) item ->
  exists t w', _get_mtime settings host item w = (Ok t, w')
               /\ fs w' = fs w /\ trace w' = trace w.
Proof.
  intros Hs. destruct (Py.startswith_any item url_prefixes) eqn:Hurl.
  - eexists _, _. split; [now apply _get_mtime_remote|now split].
  - destruct Hs as [Hs|[n Hn]]; [congruence|].
    eexists _, _. split; [now apply (_get_mtime_local _ _ _ _ n)|now split].
Qed.

(** The token-stamping comprehension shared by [js] and [css]: [key] is
    the path of an element and [stamp] rebuilds the element around its
    token. Results come out in the order of the input. *)
Lemma mapM_stamps_in_order {A B} (key : A -> string) (stamp : A -> Z -> B)
    (xs : list A) (w : World) :
  Forall (fun x => stat_able settings host (fs w) (key x)) xs ->
  exists ys w',
    mapM (fun x => let* mtime := _get_mtime settings host (key x) in
                   ret (stamp x mtime)) xs w = (Ok ys, w')
    /\ Forall2 (fun x y => exists t, y = stamp x t) xs ys
    /\ fs w' = fs w /\ trace w' = trace w.
Proof.
  revert w. induction xs as [|x xs IH]; intros w Hall.
  - exists [], w. repeat split. constructor.
  - inversion Hall as [|? ? Hx Hxs]; subst.
    destruct (_get_mtime_stat_able (key x) w Hx) as (t & w1 & Ht & Hfs1 & Htr1).
    rewrite <- Hfs1 in Hxs.
    destruct (IH w1 Hxs) as (ys & w2 & Hys & Hord & Hfs2 & Htr2).
    exists (stamp x t :: ys), w2. split; [|split; [|split]].
    + assert (Hx1 : (let* mtime := _get_mtime settings host (key x) in
                     ret (stamp x mtime)) w = (Ok (stamp x t), w1)).
      { now rewrite (bind_ok _ _ _ _ _ Ht). }
      cbn [mapM]. rewrite (bind_ok _ _ _ _ _ Hx1).
      now rewrite (bind_ok _ _ _ _ _ Hys).
    + constructor; [now exists t | assumption].
    + congruence.
    + congruence.
Qed.

(** The first item that cannot be stat'ed aborts the comprehension. *)
Lemma mapM_missing_file {A B} (key : A -> string) (stamp : A -> Z -> B)
    (x : A) (xs : list A) (w : World) :
  Py.startswith_any (key x) url_prefixes = false ->
  fs w !! get_path settings host (key x) = None ->
  mapM (fun x => let* mtime := _get_mtime settings host (key x) in
                 ret (stamp x mtime)) (x :: xs) w = (Raise (OSError ENOENT), w).
Proof.
  intros Hurl Hnone. cbn [mapM].
  apply bind_raise, bind_raise. now apply _get_mtime_missing.
Qed.

(** [js] in debug mode: when every item of the bundle can be stat'ed, one
    reference per item, in manifest order, each the item followed by its
    build query; the markup is the script tags of these references,
    one per line. *)
Lemma js_debug_one_reference_per_item
    (bundle : string) (defer async : bool) (w : World) (sources : list string) :
  bundle_sources settings "js" bundle w = (Ok sources, w) ->
  Forall (stat_able settings host (fs w)) sources ->
  exists refs w',
    js_items settings build host bundle true w = (Ok refs, w')
    /\ Forall2 (fun item ref => exists t, ref = item ++ "?build=" ++ Py.str t) sources refs
    /\ js settings build host bundle true defer async w
       = (Ok (Py.join Py.nl
                (map (fun ref => script_tag defer async (_get_item_path settings ref)) refs)),
          w')
    /\ fs w' = fs w /\ trace w' = trace w.
Proof.
  intros Hsrc Hall.
  destruct (mapM_stamps_in_order (fun item => item)
              (fun item t => item ++ "?build=" ++ Py.str t) sources w Hall)
    as (refs & w' & Hrefs & Hord & Hfs & Htr).
  assert (Hitems : js_items settings build host bundle true w = (Ok refs, w')).
  { unfold js_items. now rewrite (bind_ok _ _ _ _ _ Hsrc). }
  exists refs, w'. split; [exact Hitems|]. split; [exact Hord|].
  split; [|now split].
  unfold js. now rewrite (bind_ok _ _ _ _ _ Hitems).
Qed.

(** The [rel] attribute [css] gives an item it does not compile. *)
Lemma css_classify_uncompiled (sources : list string) (items : list (string * string))
    (w : World) :
  Forall (fun item => needs_compiling settings item = false) sources ->
  css_classify settings host sources items w
  = (Ok (items ++ map (fun item =>
                         (item, if Py.endswith item ".less"
                                then "stylesheet/less" else "stylesheet"))
                      sources)%list, w).
Proof.
  revert items. induction sources as [|item rest IH]; intros items Hall.
  - simpl. now rewrite app_nil_r.
  - inversion Hall as [|? ? Hitem Hrest]; subst.
    cbn [css_classify map]. rewrite Hitem.
    destruct (Py.endswith item ".less");
      rewrite (IH _ Hrest), <- app_assoc; reflexivity.
Qed.

(** The loop stops at the first item that needs compiling: the item is
    compiled, and then the two-argument [append] raises. *)
Lemma css_classify_compiled (plain rest : list string) (item : string)
    (items : list (string * string)) (w : World) :
  Forall (fun i => needs_compiling settings i = false) plain ->
  needs_compiling settings item = true ->
  css_classify settings host (plain ++ item :: rest) items w
  = (match fst (compile_css settings host item w) with
     | Ok _ => Raise append_arity_error
     | Raise e => Raise e
     end,
     snd (compile_css settings host item w)).
Proof.
  revert items. induction plain as [|p plain IH]; intros items Hall Hitem.
  - cbn [app css_classify]. rewrite Hitem. unfold bind.
    destruct (compile_css settings host item w) as [[[]|e] w']; reflexivity.
  - inversion Hall as [|? ? Hp Hplain]; subst.
    cbn [app css_classify]. rewrite Hp.
    destruct (Py.endswith p ".less"); now apply IH.
Qed.

(** [css] in debug mode on a bundle none of whose items needs compiling:
    one reference per item, in manifest order, each paired with its [rel]
    attribute. *)
Lemma css_debug_uncompiled_one_reference_per_item
    (bundle : string) (media : MediaArg) (w : World) (sources : list string) :
  bundle_sources settings "css" bundle w = (Ok sources, w) ->
  Forall (fun item => needs_compiling settings item = false) sources ->
  Forall (stat_able settings host (fs w)) sources ->
  exists refs w',
    css_items settings build host bundle true w = (Ok refs, w')
    /\ Forall2 (fun item ref =>
                  exists t, ref = (item ++ "?build=" ++ Py.str t,
                                   if Py.endswith item ".less"
                                   then "stylesheet/less" else "stylesheet"))
               sources refs
    /\ css settings build host bundle media true w
       = (Ok (Py.join Py.nl (map (link_tag settings (css_media settings media)) refs)), w')
    /\ fs w' = fs w /\ trace w' = trace w.
Proof.
  intros Hsrc Hplain Hall.
  pose (rel := fun item : string =>
                 if Py.endswith item ".less" then "stylesheet/less" else "stylesheet").
  assert (Hall' : Forall (fun x : string * string =>
                            stat_able settings host (fs w) (fst x))
                         (map (fun item => (item, rel item)) sources)).
  { apply Forall_map. exact Hall. }
  destruct (mapM_stamps_in_order (fun x : string * string => fst x)
              (fun x t => (fst x ++ "?build=" ++ Py.str t, snd x)) _ w Hall')
    as (refs & w' & Hrefs & Hord & Hfs & Htr).
  assert (Hitems : css_items settings build host bundle true w = (Ok refs, w')).
  { unfold css_items. rewrite (bind_ok _ _ _ _ _ Hsrc).
    rewrite (bind_ok _ _ _ _ _ (css_classify_uncompiled sources [] w Hplain)).
    exact Hrefs. }
  exists refs, w'. split; [exact Hitems|]. split; [|split; [|now split]].
  - apply Forall2_fmap_l in Hord. exact Hord.
  - now apply css_renders_items.
Qed.

End DebugReferences.

(** C2. The end-to-end scenario of a css bundle holding a plain stylesheet
    and a [.less] file, with preprocessing on, in debug mode: two
    references are due, [a.css] and [b.less.css] in that order. The helper
    instead compiles [b.less] and then raises the [TypeError] of the
    two-argument [append]; no reference is returned. The same site's js
    bundle, and a css bundle without compiled items, do yield one
    reference per item in manifest order
    ([js_debug_one_reference_per_item],
    [css_debug_uncompiled_one_reference_per_item]). *)
Theorem css_debug_scenario_raises :
  fst (css site_settings None quiet_host "main" MediaFalse true site_world)
    = Raise append_arity_error
  /\ trace (snd (css site_settings None quiet_host "main" MediaFalse true site_world))
     = [Popen ["lessc"; "/srv/static/b.less"] "/srv/static/b.less.css"]
  /\ fst (js site_settings None quiet_host "app" true false false site_world)
     = Ok ("<script src=" ++ Py.dq ++ "/static/a.js?build=3" ++ Py.dq ++ "></script>"
             ++ Py.nl
             ++ "<script src=" ++ Py.dq ++ "https://cdn.example/app.js?build=1000" ++ Py.dq
             ++ "></script>").
Proof. repeat split; vm_compute; reflexivity. Qed.

(** C8. In debug mode [css] classifies each item by extension, and an item
    that needs compiling is compiled, but its reference is never emitted:
    the loop reaches the first such item, runs [compile_css] on it, and the
    [append] that should record [<item>.css] with [rel] [stylesheet] raises
    [TypeError]. Whatever the bundle, the call returns no markup. (Items
    that are not compiled get [stylesheet/less] or [stylesheet]:
    [css_debug_uncompiled_one_reference_per_item].) *)
Theorem css_debug_compiled_item_raises
    (settings : Settings) (build : option BuildModule) (host : Host)
    (bundle : string) (media : MediaArg) (w : World)
    (plain rest : list string) (item : string) :
  bundle_sources settings "css" bundle w = (Ok (plain ++ item :: rest)%list, w) ->
  Forall (fun i => needs_compiling settings i = false) plain ->
  needs_compiling settings item = true ->
  css settings build host bundle media true w
  = (match fst (compile_css settings host item w) with
     | Ok _ => Raise append_arity_error
     | Raise e => Raise e
     end,
     snd (compile_css settings host item w))
  /\ is_ok (fst (css settings build host bundle media true w)) = false.
Proof.
  intros Hsrc Hplain Hitem.
  assert (Hcss : css settings build host bundle media true w
                 = (match fst (compile_css settings host item w) with
                    | Ok _ => Raise append_arity_error
                    | Raise e => Raise e
                    end,
                    snd (compile_css settings host item w))).
  { assert (Hitems : css_items settings build host bundle true w
                     = (match fst (compile_css settings host item w) with
                        | Ok _ => Raise append_arity_error
                        | Raise e => Raise e
                        end,
                        snd (compile_css settings host item w))).
    { unfold css_items. rewrite (bind_ok _ _ _ _ _ Hsrc).
      unfold bind.
      rewrite (css_classify_compiled settings host plain rest item [] w Hplain Hitem).
      destruct (fst (compile_css settings host item w)); reflexivity. }
    unfold css, bind. rewrite Hitems.
    destruct (fst (compile_css settings host item w)); reflexivity. }
  split; [exact Hcss|].
  rewrite Hcss. simpl. now destruct (fst (compile_css settings host item w)).
Qed.

Lemma css_debug_compiled_item_raises_witness :
  bundle_sources site_settings "css" "main" site_world
    = (Ok (["a.css"] ++ "b.less" :: [])%list, site_world)
  /\ Forall (fun i => needs_compiling site_settings i = false) ["a.css"]
  /\ needs_compiling site_settings "b.less" = true
  /\ fst (compile_css site_settings quiet_host "b.less" site_world) = Ok tt
  /\ fst (css site_settings None quiet_host "main" MediaFalse true site_world)
     = Raise append_arity_error
  /\ is_ok (fst (css site_settings None quiet_host "main" MediaFalse true site_world))
     = false.
Proof.
  assert (H1 : bundle_sources site_settings "css" "main" site_world
               = (Ok (["a.css"] ++ "b.less" :: [])%list, site_world)) by reflexivity.
  assert (H2 : Forall (fun i => needs_compiling site_settings i = false) ["a.css"]).
  { constructor; [reflexivity | constructor]. }
  assert (H3 : needs_compiling site_settings "b.less" = true) by reflexivity.
  assert (H4 : fst (compile_css site_settings quiet_host "b.less" site_world) = Ok tt)
    by (vm_compute; reflexivity).
  destruct (css_debug_compiled_item_raises site_settings None quiet_host "main"
              MediaFalse site_world ["a.css"] [] "b.less" H1 H2 H3) as [Hcss Hnot].
  split; [exact H1|]. split; [exact H2|]. split; [exact H3|]. split; [exact H4|].
  split; [|exact Hnot].
  rewrite Hcss. cbn [fst]. now rewrite H4.
Defined.

(** ** Creating the destination directory *)

(** *** Lengths of heads and tails *)

Lemma length_substring_le_count (n m : nat) (s : string) :
  (String.length (substring n m s) <= m)%nat.
Proof.
  revert n m. induction s as [|c s IH]; intros n m.
  - destruct n, m; cbn; lia.
  - destruct n as [|n].
    + destruct m as [|m]; cbn; [lia|]. specialize (IH 0%nat m). lia.
    + cbn. apply IH.
Qed.

Lemma length_substring_le (n m : nat) (s : string) :
  (String.length (substring n m s) <= String.length s)%nat.
Proof.
  revert n m. induction s as [|c s IH]; intros n m.
  - destruct n, m; cbn; lia.
  - destruct n as [|n].
    + destruct m as [|m]; cbn; [lia|]. specialize (IH 0%nat m). lia.
    + cbn. specialize (IH n m). lia.
Qed.

Lemma length_rstrip_slashes_le (s : string) :
  (String.length (Py.rstrip_slashes s) <= String.length s)%nat.
Proof.
  induction s as [|c s IH]; cbn; [lia|].
  destruct (Py.rstrip_slashes s) as [|c' r].
  - destruct (Py.is_slash c); cbn; lia.
  - cbn in *. lia.
Qed.

Lemma length_dirname_le (p : string) :
  (String.length (Py.dirname p) <= String.length p)%nat
  /\ (String.length (Py.dirname p) <= Py.after_last_slash p)%nat.
Proof.
  unfold Py.dirname.
  pose proof (length_substring_le 0 (Py.after_last_slash p) p) as H1.
  pose proof (length_substring_le_count 0 (Py.after_last_slash p) p) as H2.
  pose proof (length_rstrip_slashes_le (substring 0 (Py.after_last_slash p) p)) as H3.
  destruct (Py.all_slashes _); lia.
Qed.

Lemma split_head_shorter (p head tail : string) :
  Py.split p = (head, tail) -> tail <> "" ->
  (String.length head < String.length p)%nat.
Proof.
  unfold Py.split. intros [= <- <-] Htail.
  pose proof (length_substring_le_count (Py.after_last_slash p)
                (String.length p - Py.after_last_slash p) p) as Hlen.
  destruct (substring (Py.after_last_slash p) _ p) as [|c t] eqn:Ht; [congruence|].
  cbn in Hlen. destruct (length_dirname_le p) as [_ H]. lia.
Qed.

Lemma parent_of_shorter (name head : string) :
  parent_of name = Some head -> (String.length head < String.length name)%nat.
Proof.
  unfold parent_of.
  destruct (Py.split name) as [h t] eqn:Hsplit.
  destruct (String.eqb_spec t "") as [->|Ht].
  - destruct (Py.split h) as [h' t'] eqn:Hsplit'.
    destruct (String.eqb_spec h' ""); cbn; [discriminate|].
    destruct (String.eqb_spec t' ""); cbn; [discriminate|].
    intros [= <-].
    pose proof (split_head_shorter _ _ _ Hsplit' ltac:(assumption)) as Hlt.
    assert (h = Py.dirname name) as -> by (unfold Py.split in Hsplit; congruence).
    destruct (length_dirname_le name). lia.
  - cbn beta iota.
    destruct (String.eqb_spec h ""); cbn; [discriminate|].
    destruct (String.eqb_spec t ""); cbn; [contradiction|].
    intros [= <-]. now apply (split_head_shorter _ _ _ Hsplit).
Qed.

(** *** What [os.makedirs] creates *)

Lemma missing_parents_spec (fuel : nat) (files : gmap string Node) (name q : string) :
  In q (missing_parents fuel files name) ->
  files !! q = None
  /\ (String.length q < String.length name)%nat
  /\ In q (parents fuel name).
Proof.
  revert name. induction fuel as [|fuel IH]; intros name;
    cbn [missing_parents parents]; [intros Hin; exfalso; exact Hin|].
  destruct (parent_of name) as [head|] eqn:Hparent; [|intros Hin; exfalso; exact Hin].
  pose proof (parent_of_shorter _ _ Hparent) as Hlt.
  destruct (bool_decide (is_Some (files !! head))) eqn:Hex;
    [intros Hin; exfalso; exact Hin|].
  intros Hin. apply in_app_or in Hin. destruct Hin as [Hin|[<-|[]]].
  - destruct (IH _ Hin) as (Hnone & Hlen & Hpar).
    split; [exact Hnone|]. split; [lia|]. apply in_or_app. now left.
  - split; [|split; [exact Hlt|apply in_or_app; right; now left]].
    apply bool_decide_eq_false in Hex.
    destruct (files !! head) eqn:Hq; [|reflexivity]. exfalso. apply Hex. eauto.
Qed.

Lemma touch_all_spec (host : Host) (paths : list string) (w : World) :
  trace (touch_all host paths w) = trace w
  /\ ticks (touch_all host paths w) = (ticks w + length paths)%nat
  /\ (forall q, ~ In q paths -> fs (touch_all host paths w) !! q = fs w !! q)
  /\ (forall q, In q paths ->
        exists k, (ticks w <= k)%nat
                  /\ fs (touch_all host paths w) !! q
                     = Some (mkNode Directory (clock host k))).
Proof.
  revert w. induction paths as [|p paths IH]; intros w.
  - cbn. repeat split; [lia|contradiction].
  - change (touch_all host (p :: paths) w)
      with (touch_all host paths (touch host Directory p w)).
    destruct (IH (touch host Directory p w)) as (Htr & Htk & Hout & Hin).
    set (w1 := touch host Directory p w) in *.
    assert (Htr1 : trace w1 = trace w) by reflexivity.
    assert (Htk1 : ticks w1 = S (ticks w)) by reflexivity.
    assert (Hfs1 : fs w1 = <[p := mkNode Directory (clock host (ticks w))]> (fs w))
      by reflexivity.
    split; [congruence|]. split; [cbn [length]; lia|]. split.
    + intros q Hq. rewrite Hout by (intros H; apply Hq; now right).
      rewrite Hfs1. apply lookup_insert_ne. intros ->. apply Hq. now left.
    + intros q Hq. destruct (in_dec String.string_dec q paths) as [Hlater|Hnot].
      * destruct (Hin q Hlater) as (k & Hk & Hnode). exists k. split; [lia|exact Hnode].
      * destruct Hq as [->|Hq]; [|contradiction].
        exists (ticks w). split; [lia|]. rewrite Hout by exact Hnot.
        rewrite Hfs1. apply lookup_insert_eq.
Qed.

(** A successful [os.makedirs] only adds directories, [path] among
    them. *)
Lemma os_makedirs_ok (host : Host) (path : string) (w w' : World) :
  os_makedirs host path w = (Ok tt, w') ->
  only_adds_directories host path w w' /\ is_Some (fs w' !! path).
Proof.
  unfold os_makedirs.
  destruct (fs w !! path) as [n|] eqn:Hpath; [discriminate|].
  destruct (makedirs_errno host path); [discriminate|].
  intros [= <-].
  set (created := (missing_parents (String.length path) (fs w) path ++ [path])%list).
  destruct (touch_all_spec host created w) as (Htr & Htk & Hout & Hin).
  split.
  - split; [exact Htr|]. split; [lia|]. intros q.
    destruct (in_dec String.string_dec q created) as [Hq|Hq]; [right|left; now apply Hout].
    split; [|split; [|split; [|now apply Hin]]].
    + apply in_app_or in Hq. destruct Hq as [Hq|[<-|[]]]; [|exact Hpath].
      now apply missing_parents_spec in Hq.
    + apply in_app_or in Hq. apply in_or_app. destruct Hq as [Hq|Hq]; [left|now right].
      now apply missing_parents_spec in Hq.
    + apply in_app_or in Hq. destruct Hq as [Hq|[<-|[]]]; [right|now left].
      now apply missing_parents_spec in Hq.
  - destruct (Hin path) as (k & _ & Hk); [|eauto].
    apply in_or_app. right. now left.
Qed.

Lemma only_adds_directories_refl (host : Host) (path : string) (w : World) :
  only_adds_directories host path w w.
Proof. split; [reflexivity|]. split; [lia|]. intros q. now left. Qed.

(** Whatever its outcome, [ensure_path_exists] only adds directories. *)
Lemma ensure_path_exists_effect (host : Host) (path : string) (w w' : World)
    (r : Result unit) :
  ensure_path_exists host path w = (r, w') ->
  only_adds_directories host path w w'.
Proof.
  unfold ensure_path_exists.
  destruct (os_makedirs host path w) as [[[]|e] w1] eqn:Hmk.
  - intros [= <- <-]. now apply os_makedirs_ok in Hmk.
  - assert (w1 = w) as ->.
    { unfold os_makedirs in Hmk. destruct (fs w !! path); [now injection Hmk|].
      destruct (makedirs_errno host path); [now injection Hmk|discriminate]. }
    intros Hr. assert (w' = w) as ->.
    { destruct e; try (now injection Hr).
      destruct (negb (Z.eqb errno EEXIST)); now injection Hr. }
    apply only_adds_directories_refl.
Qed.

(** Existing paths survive such a step, and so does a destination that is
    not its own directory. *)
Lemma only_adds_directories_keeps (host : Host) (path : string) (w w' : World) (q : string) :
  only_adds_directories host path w w' ->
  is_Some (fs w !! q) -> fs w' !! q = fs w !! q.
Proof.
  intros (_ & _ & Hq) [n Hn]. destruct (Hq q) as [H|(Hnone & _)]; [exact H|congruence].
Qed.

Lemma only_adds_directories_spares_destination
    (host : Host) (path_dst : string) (w w' : World) :
  only_adds_directories host (Py.dirname path_dst) w w' ->
  Py.dirname path_dst <> path_dst ->
  fs w' !! path_dst = fs w !! path_dst.
Proof.
  intros (_ & _ & Hq) Hne.
  destruct (Hq path_dst) as [H|(_ & _ & [Heq|Hlt] & _)]; [exact H|congruence|].
  destruct (length_dirname_le path_dst). lia.
Qed.

Lemma os_makedirs_existing (host : Host) (path : string) (w : World) :
  is_Some (fs w !! path) ->
  os_makedirs host path w = (Raise (OSError EEXIST), w).
Proof. intros [n Hn]. unfold os_makedirs. now rewrite Hn. Qed.

Lemma ensure_path_exists_existing (host : Host) (path : string) (w : World) :
  is_Some (fs w !! path) -> ensure_path_exists host path w = (Ok tt, w).
Proof.
  intros H. unfold ensure_path_exists. now rewrite (os_makedirs_existing _ _ _ H).
Qed.

Lemma ensure_path_exists_created (host : Host) (path : string) (w : World) :
  fs w !! path = None -> makedirs_errno host path = None ->
  ensure_path_exists host path w
  = (Ok tt,
     touch_all host (missing_parents (String.length path) (fs w) path ++ [path])%list w).
Proof.
  intros Hn He. unfold ensure_path_exists, os_makedirs. now rewrite Hn, He.
Qed.

(** C7. [ensure_path_exists] returns normally when the directory is
    already there: the [OSError] with [errno] [EEXIST] that [os.makedirs]
    raises is swallowed and nothing changes. Every other exception raised
    by [os.makedirs] reaches the caller unchanged. When the directory had
    to be created, a second call finds it and returns normally too. *)
Theorem ensure_path_exists_swallows_only_EEXIST (host : Host) (path : string) (w : World) :
  (is_Some (fs w !! path) -> ensure_path_exists host path w = (Ok tt, w))
  /\ (forall w', os_makedirs host path w = (Raise (OSError EEXIST), w') ->
                 ensure_path_exists host path w = (Ok tt, w'))
  /\ (forall e w', e <> OSError EEXIST ->
                   os_makedirs host path w = (Raise e, w') ->
                   ensure_path_exists host path w = (Raise e, w'))
  /\ (forall w', os_makedirs host path w = (Ok tt, w') ->
                 ensure_path_exists host path w = (Ok tt, w')
                 /\ ensure_path_exists host path w' = (Ok tt, w')).
Proof.
  split; [apply ensure_path_exists_existing|].
  split; [|split].
  - intros w' H. unfold ensure_path_exists. now rewrite H.
  - intros e w' Hne H. unfold ensure_path_exists. rewrite H.
    destruct e as [| | |errno|]; try reflexivity.
    destruct (Z.eqb_spec errno EEXIST) as [->|]; [congruence|reflexivity].
  - intros w' H. split.
    + unfold ensure_path_exists. now rewrite H.
    + apply ensure_path_exists_existing.
      exact (proj2 (os_makedirs_ok host path w w' H)).
Qed.

Lemma ensure_path_exists_swallows_only_EEXIST_witness :
  is_Some (fs site_world !! "/srv/static")
  /\ ensure_path_exists quiet_host "/srv/static" site_world = (Ok tt, site_world)
  /\ OSError EACCES <> OSError EEXIST
  /\ os_makedirs locked_host "/srv/static/css" site_world
     = (Raise (OSError EACCES), site_world)
  /\ ensure_path_exists locked_host "/srv/static/css" site_world
     = (Raise (OSError EACCES), site_world)
  /\ ensure_path_exists quiet_host "/srv/static/css"
       (touch quiet_host Directory "/srv/static/css" site_world)
     = (Ok tt, touch quiet_host Directory "/srv/static/css" site_world).
Proof.
  assert (H1 : is_Some (fs site_world !! "/srv/static")) by (eexists; reflexivity).
  assert (H2 : OSError EACCES <> OSError EEXIST) by discriminate.
  assert (H3 : os_makedirs locked_host "/srv/static/css" site_world
               = (Raise (OSError EACCES), site_world)) by reflexivity.
  assert (H4 : os_makedirs quiet_host "/srv/static/css" site_world
               = (Ok tt, touch quiet_host Directory "/srv/static/css" site_world))
    by reflexivity.
  split; [exact H1|].
  split; [exact (proj1 (ensure_path_exists_swallows_only_EEXIST
                         quiet_host "/srv/static" site_world) H1)|].
  split; [exact H2|]. split; [exact H3|].
  split.
  - exact (proj1 (proj2 (proj2 (ensure_path_exists_swallows_only_EEXIST
                                  locked_host "/srv/static/css" site_world)))
             _ _ H2 H3).
  - exact (proj2 (proj2 (proj2 (proj2 (ensure_path_exists_swallows_only_EEXIST
                                         quiet_host "/srv/static/css" site_world)))
                    _ H4)).
Defined.

(** ** Staleness and recompilation *)

Lemma uncompiled_is_newer_false (updated_src updated_css : Q) :
  uncompiled_is_newer updated_src updated_css = false
  <-> ~ (updated_css == 0)%Q /\ (updated_src <= updated_css)%Q.
Proof.
  unfold uncompiled_is_newer, Py.is_zero, Py.gt.
  rewrite orb_false_iff, negb_false_iff, Qle_bool_iff, Z.eqb_neq.
  unfold Qeq. simpl. rewrite Z.mul_1_r. tauto.
Qed.

Lemma uncompiled_is_newer_never_built (updated_src : Q) :
  uncompiled_is_newer updated_src 0 = true.
Proof. reflexivity. Qed.

Section Compile.

Context (settings : Settings) (host : Host).

Lemma destination_is_fresh_iff (w : World) (path_dst : string) (updated_src : Q) :
  destination_is_fresh updated_src (fs w !! path_dst)
  <-> uncompiled_is_newer updated_src (updated_css_in w path_dst) = false.
Proof.
  unfold destination_is_fresh, updated_css_in.
  destruct (fs w !! path_dst) as [n|].
  - now rewrite uncompiled_is_newer_false.
  - rewrite uncompiled_is_newer_never_built. split; [contradiction|discriminate].
Qed.

(** With the source in place, [compile_css] is the staleness test followed
    by [recompile]. *)
Lemma compile_css_unfold (item : string) (w : World) (n_src : Node) :
  fs w !! get_path settings host item = Some n_src ->
  compile_css settings host item w
  = if uncompiled_is_newer (st_mtime n_src)
         (updated_css_in w (get_path settings host (item ++ ".css")))
    then recompile settings host item (get_path settings host item)
           (get_path settings host (item ++ ".css")) w
    else (Ok tt, w).
Proof.
  intros Hsrc. unfold compile_css, updated_css_in.
  unfold bind at 1. unfold os_path_getmtime at 1. rewrite Hsrc.
  unfold bind at 1. unfold os_path_exists at 1.
  destruct (fs w !! get_path settings host (item ++ ".css")) as [n|] eqn:Hdst.
  - rewrite bool_decide_eq_true_2 by eauto.
    unfold bind at 1. unfold os_path_getmtime at 1. rewrite Hdst.
    now destruct (uncompiled_is_newer (st_mtime n_src) (st_mtime n)).
  - reflexivity.
Qed.

Lemma compile_css_source_missing (item : string) (w : World) :
  fs w !! get_path settings host item = None ->
  compile_css settings host item w = (Raise (OSError ENOENT), w).
Proof.
  intros Hsrc. unfold compile_css.
  apply bind_raise. unfold os_path_getmtime. now rewrite Hsrc.
Qed.

End Compile.

Section Recompile.

Context (settings : Settings) (host : Host).





(** The directory step when the directory is there or can be created:
    it goes through and leaves a writable destination writable. *)
Lemma ensure_destination_directory (path_dst : string) (w : World) :
  (is_Some (fs w !! Py.dirname path_dst)
   \/ makedirs_errno host (Py.dirname path_dst) = None
   \/ makedirs_errno host (Py.dirname path_dst) = Some EEXIST) ->
  open_refused host path_dst w = None ->
  Py.dirname path_dst <> path_dst ->
  exists wa,
    ensure_path_exists host (Py.dirname path_dst) w = (Ok tt, wa)
    /\ trace wa = trace w
    /\ (ticks w <= ticks wa)%nat
    /\ open_refused host path_dst wa = None.
Proof.
  intros Hmk Hopen Hdir.
  assert (Hens : exists wa,
            ensure_path_exists host (Py.dirname path_dst) w = (Ok tt, wa)).
  { destruct (fs w !! Py.dirname path_dst) as [n|] eqn:Hd.
    - exists w. apply ensure_path_exists_existing. rewrite Hd. eauto.
    - destruct Hmk as [[n Hn]|[Hmk|Hmk]]; [discriminate| |].
      + eexists. now apply ensure_path_exists_created.
      + exists w. unfold ensure_path_exists, os_makedirs. now rewrite Hd, Hmk. }
  destruct Hens as (wa & Hens). exists wa.
  pose proof (ensure_path_exists_effect _ _ _ _ _ Hens) as Heff.
  pose proof (only_adds_directories_spares_destination _ _ _ _ Heff Hdir) as Hsame.
  destruct Heff as (Htr & Htk & _).
  split; [exact Hens|]. split; [exact Htr|]. split; [exact Htk|].
  unfold open_refused in *. now rewrite Hsame.
Qed.


End Recompile.

Section Staleness.

Context (settings : Settings) (host : Host).

Lemma fresh_or_stale (src_mtime : Q) (dst : option Node) :
  destination_is_fresh src_mtime dst \/ destination_is_stale src_mtime dst.
Proof.
  destruct dst as [n|]; simpl; [|now right].
  destruct (Qeq_dec (st_mtime n) 0) as [Hz|Hz]; [now right; left|].
  destruct (Qlt_le_dec (st_mtime n) src_mtime) as [Hlt|Hle]; [now right; right|].
  now left.
Qed.

Lemma stale_not_fresh (src_mtime : Q) (dst : option Node) :
  destination_is_stale src_mtime dst -> ~ destination_is_fresh src_mtime dst.
Proof.
  destruct dst as [n|]; simpl; [|tauto].
  intros [Hz|Hlt] [Hnz Hle]; [contradiction|].
  exact (Qlt_not_le _ _ Hlt Hle).
Qed.

Lemma compile_css_fresh (item : string) (w : World) (n_src : Node) :
  fs w !! get_path settings host item = Some n_src ->
  destination_is_fresh (st_mtime n_src)
    (fs w !! get_path settings host (item ++ ".css")) ->
  compile_css settings host item w = (Ok tt, w).
Proof.
  intros Hsrc Hfresh. rewrite (compile_css_unfold _ _ _ _ _ Hsrc).
  apply destination_is_fresh_iff in Hfresh. now rewrite Hfresh.
Qed.

Lemma compile_css_stale (item : string) (w : World) (n_src : Node) :
  fs w !! get_path settings host item = Some n_src ->
  destination_is_stale (st_mtime n_src)
    (fs w !! get_path settings host (item ++ ".css")) ->
  compile_css settings host item w
  = recompile settings host item (get_path settings host item)
      (get_path settings host (item ++ ".css")) w.
Proof.
  intros Hsrc Hstale. rewrite (compile_css_unfold _ _ _ _ _ Hsrc).
  destruct (uncompiled_is_newer _ _) eqn:Hnew; [reflexivity|].
  apply destination_is_fresh_iff in Hnew.
  now apply stale_not_fresh in Hstale.
Qed.

End Staleness.





Lemma quiet_clock_is_late (k : nat) :
  ~ (clock quiet_host k == 0)%Q /\ (9 <= clock quiet_host k)%Q.
Proof.
  unfold quiet_host, clock, inject_Z, Qeq, Qle. simpl. lia.
Defined.



(** * Further properties of the helpers *)

(** ** Debug mode, item by item *)

Section DebugTokens.

Context (settings : Settings) (host : Host).

Lemma debug_token_later (files : gmap string Node) (from from' : nat)
    (item : string) (t : Z) :
  (from <= from')%nat ->
  debug_token settings host files from' item t ->
  debug_token settings host files from item t.
Proof.
  unfold debug_token. intros Hle.
  destruct (Py.startswith_any item url_prefixes); [|trivial].
  intros (k & Hk & Ht). exists k. split; [lia|exact Ht].
Qed.

(** One step of the stamping comprehension on an item that can be
    stat'ed. *)
Lemma _get_mtime_token (item : string) (w : World) :
  stat_able settings host (fs w) item ->
  exists t w',
    _get_mtime settings host item w = (Ok t, w')
    /\ debug_token settings host (fs w) (ticks w) item t
    /\ fs w' = fs w /\ trace w' = trace w
    /\ ticks w' = (ticks w + clock_reads [item])%nat.
Proof.
  intros Hs. unfold debug_token. cbn [clock_reads].
  destruct (Py.startswith_any item url_prefixes) eqn:Hurl.
  - eexists _, _. split; [now apply _get_mtime_remote|].
    split; [exists (ticks w); split; [lia|reflexivity]|].
    cbn. repeat split. lia.
  - destruct Hs as [Hs|[n Hn]]; [congruence|].
    eexists _, _. split; [now apply (_get_mtime_local _ _ _ _ n)|].
    split; [now exists n|]. repeat split. cbn. lia.
Qed.

(** The stamping comprehension, with the tokens it computes and the
    number of clock readings it takes. *)
Lemma mapM_stamps_tokens {A B} (key : A -> string) (stamp : A -> Z -> B)
    (xs : list A) (w : World) :
  Forall (fun x => stat_able settings host (fs w) (key x)) xs ->
  exists ys w',
    mapM (fun x => let* mtime := _get_mtime settings host (key x) in
                   ret (stamp x mtime)) xs w = (Ok ys, w')
    /\ Forall2 (fun x y => exists t,
                  debug_token settings host (fs w) (ticks w) (key x) t
                  /\ y = stamp x t) xs ys
    /\ fs w' = fs w /\ trace w' = trace w
    /\ ticks w' = (ticks w + clock_reads (map key xs))%nat.
Proof.
  revert w. induction xs as [|x xs IH]; intros w Hall.
  - exists [], w. cbn. repeat split; [constructor|lia].
  - inversion Hall as [|? ? Hx Hxs]; subst.
    destruct (_get_mtime_token (key x) w Hx)
      as (t & w1 & Ht & Htok & Hfs1 & Htr1 & Htk1).
    rewrite <- Hfs1 in Hxs.
    destruct (IH w1 Hxs) as (ys & w2 & Hys & Hord & Hfs2 & Htr2 & Htk2).
    exists (stamp x t :: ys), w2. split; [|split; [|split; [|split]]].
    + assert (Hx1 : (let* mtime := _get_mtime settings host (key x) in
                     ret (stamp x mtime)) w = (Ok (stamp x t), w1)).
      { now rewrite (bind_ok _ _ _ _ _ Ht). }
      cbn [mapM]. rewrite (bind_ok _ _ _ _ _ Hx1).
      now rewrite (bind_ok _ _ _ _ _ Hys).
    + constructor; [now exists t|].
      eapply Forall2_impl; [exact Hord|].
      intros a b (t' & Htok' & ->). exists t'. split; [|reflexivity].
      rewrite Hfs1 in Htok'.
      apply (debug_token_later _ _ (ticks w1)); [|exact Htok'].
      cbn [clock_reads] in Htk1. lia.
    + congruence.
    + congruence.
    + cbn [map clock_reads] in *. lia.
Qed.

(** The comprehension stops at the first local item whose file is
    missing; the items before it have been stamped, those after it are
    not looked at. *)
Lemma mapM_stops_at_missing_file {A B} (key : A -> string) (stamp : A -> Z -> B)
    (found rest : list A) (missing : A) (w : World) :
  Forall (fun x => stat_able settings host (fs w) (key x)) found ->
  Py.startswith_any (key missing) url_prefixes = false ->
  fs w !! get_path settings host (key missing) = None ->
  exists w',
    mapM (fun x => let* mtime := _get_mtime settings host (key x) in
                   ret (stamp x mtime)) (found ++ missing :: rest)%list w
    = (Raise (OSError ENOENT), w')
    /\ fs w' = fs w /\ trace w' = trace w
    /\ ticks w' = (ticks w + clock_reads (map key found))%nat.
Proof.
  revert w. induction found as [|x xs IH]; intros w Hall Hurl Hnone.
  - exists w. split; [now apply mapM_missing_file|]. cbn. repeat split. lia.
  - inversion Hall as [|? ? Hx Hxs]; subst.
    destruct (_get_mtime_token (key x) w Hx)
      as (t & w1 & Ht & _ & Hfs1 & Htr1 & Htk1).
    rewrite <- Hfs1 in Hxs, Hnone.
    destruct (IH w1 Hxs Hurl Hnone) as (w2 & Hrun & Hfs2 & Htr2 & Htk2).
    exists w2. split; [|split; [|split]].
    + assert (Hx1 : (let* mtime := _get_mtime settings host (key x) in
                     ret (stamp x mtime)) w = (Ok (stamp x t), w1)).
      { now rewrite (bind_ok _ _ _ _ _ Ht). }
      cbn [app mapM]. rewrite (bind_ok _ _ _ _ _ Hx1).
      now rewrite (bind_raise _ _ _ _ _ Hrun).
    + congruence.
    + congruence.
    + cbn [map clock_reads] in *. lia.
Qed.

End DebugTokens.

(** X1. [js] in debug mode, for a bundle all of whose items can be
    stat'ed (URLs, or local items whose file exists): one reference per
    manifest item, in manifest order, each the item followed by
    [?build=] and its token; the markup is one script tag per reference,
    one per line. Files and processes are left alone, and the clock is
    read once per URL item. *)
Theorem js_debug_references_follow_manifest
    (settings : Settings) (build : option BuildModule) (host : Host)
    (bundle : string) (defer async : bool) (w : World)
    (bundles : gmap string (gmap string (list string)))
    (of_js : gmap string (list string)) (sources : list string) :
  MINIFY_BUNDLES settings = Some bundles ->
  bundles !! "js" = Some of_js ->
  of_js !! bundle = Some sources ->
  Forall (stat_able settings host (fs w)) sources ->
  exists refs w',
    js_items settings build host bundle true w = (Ok refs, w')
    /\ Forall2 (fun item ref => exists t,
                  debug_token settings host (fs w) (ticks w) item t
                  /\ ref = item ++ "?build=" ++ Py.str t) sources refs
    /\ js settings build host bundle true defer async w
       = (Ok (Py.join Py.nl
                (map (fun ref => script_tag defer async (_get_item_path settings ref)) refs)),
          w')
    /\ fs w' = fs w /\ trace w' = trace w
    /\ ticks w' = (ticks w + clock_reads sources)%nat.
Proof.
  intros Hm Hk Hb Hall.
  pose proof (bundle_sources_present settings "js" bundle w bundles of_js sources Hm Hk Hb)
    as Hsrc.
  destruct (mapM_stamps_tokens settings host (fun item => item)
              (fun item t => item ++ "?build=" ++ Py.str t) sources w Hall)
    as (refs & w' & Hrefs & Hord & Hfs & Htr & Htk).
  rewrite map_id in Htk.
  assert (Hitems : js_items settings build host bundle true w = (Ok refs, w')).
  { unfold js_items. now rewrite (bind_ok _ _ _ _ _ Hsrc). }
  exists refs, w'. split; [exact Hitems|]. split; [exact Hord|].
  split; [|now repeat split].
  unfold js. now rewrite (bind_ok _ _ _ _ _ Hitems).
Qed.

Lemma js_debug_references_follow_manifest_witness :
  MINIFY_BUNDLES site_settings
    = Some {[ "css" := {[ "main" := ["a.css"; "b.less"];
                          "plain" := ["a.css"; "c.less"] ]};
              "js" := {[ "app" := ["a.js"; "https://cdn.example/app.js"] ]} ]}
  /\ Forall (stat_able site_settings quiet_host (fs site_world))
            ["a.js"; "https://cdn.example/app.js"]
  /\ exists refs w',
       js_items site_settings None quiet_host "app" true site_world = (Ok refs, w')
       /\ Forall2 (fun item ref => exists t,
                     debug_token site_settings quiet_host (fs site_world)
                       (ticks site_world) item t
                     /\ ref = item ++ "?build=" ++ Py.str t)
                  ["a.js"; "https://cdn.example/app.js"] refs
       /\ js site_settings None quiet_host "app" true true false site_world
          = (Ok (Py.join Py.nl
                   (map (fun ref => script_tag true false
                                      (_get_item_path site_settings ref)) refs)), w')
       /\ fs w' = fs site_world /\ trace w' = trace site_world
       /\ ticks w' = (ticks site_world
                      + clock_reads ["a.js"; "https://cdn.example/app.js"])%nat.
Proof.
  assert (Hall : Forall (stat_able site_settings quiet_host (fs site_world))
                        ["a.js"; "https://cdn.example/app.js"]).
  { constructor; [right; eexists; reflexivity|].
    constructor; [left; reflexivity|constructor]. }
  split; [reflexivity|]. split; [exact Hall|].
  exact (js_debug_references_follow_manifest site_settings None quiet_host "app"
           true false site_world _
           {[ "app" := ["a.js"; "https://cdn.example/app.js"] ]} _
           eq_refl eq_refl eq_refl Hall).
Defined.

(** X2. [css] in debug mode, for a bundle none of whose items needs
    compiling and all of whose items can be stat'ed: one link per manifest
    item, in manifest order. Each reference is the item followed by
    [?build=] and its token, paired with [stylesheet/less] for a [.less]
    item and [stylesheet] for any other; every link carries the same media
    attribute. Files and processes are left alone. *)
Theorem css_debug_links_follow_manifest
    (settings : Settings) (build : option BuildModule) (host : Host)
    (bundle : string) (media : MediaArg) (w : World)
    (bundles : gmap string (gmap string (list string)))
    (of_css : gmap string (list string)) (sources : list string) :
  MINIFY_BUNDLES settings = Some bundles ->
  bundles !! "css" = Some of_css ->
  of_css !! bundle = Some sources ->
  Forall (fun item => needs_compiling settings item = false) sources ->
  Forall (stat_able settings host (fs w)) sources ->
  exists refs w',
    css_items settings build host bundle true w = (Ok refs, w')
    /\ Forall2 (fun item ref => exists t,
                  debug_token settings host (fs w) (ticks w) item t
                  /\ ref = (item ++ "?build=" ++ Py.str t, rel_of item)) sources refs
    /\ css settings build host bundle media true w
       = (Ok (Py.join Py.nl (map (link_tag settings (css_media settings media)) refs)), w')
    /\ fs w' = fs w /\ trace w' = trace w
    /\ ticks w' = (ticks w + clock_reads sources)%nat.
Proof.
  intros Hm Hk Hb Hplain Hall.
  pose proof (bundle_sources_present settings "css" bundle w bundles of_css sources Hm Hk Hb)
    as Hsrc.
  assert (Hall' : Forall (fun x : string * string =>
                            stat_able settings host (fs w) (fst x))
                         (map (fun item => (item, rel_of item)) sources)).
  { apply Forall_map. exact Hall. }
  destruct (mapM_stamps_tokens settings host (fun x : string * string => fst x)
              (fun x t => (fst x ++ "?build=" ++ Py.str t, snd x)) _ w Hall')
    as (refs & w' & Hrefs & Hord & Hfs & Htr & Htk).
  rewrite map_map in Htk. cbn [fst] in Htk. rewrite map_id in Htk.
  assert (Hitems : css_items settings build host bundle true w = (Ok refs, w')).
  { unfold css_items. rewrite (bind_ok _ _ _ _ _ Hsrc).
    rewrite (bind_ok _ _ _ _ _ (css_classify_uncompiled settings host sources [] w Hplain)).
    exact Hrefs. }
  exists refs, w'. split; [exact Hitems|]. split; [|split; [|now repeat split]].
  - apply Forall2_fmap_l in Hord. exact Hord.
  - now apply css_renders_items.
Qed.

Lemma css_debug_links_follow_manifest_witness :
  MINIFY_BUNDLES client_less_settings
    = Some {[ "css" := {[ "main" := ["a.css"; "b.less"];
                          "plain" := ["a.css"; "c.less"] ]};
              "js" := {[ "app" := ["a.js"; "https://cdn.example/app.js"] ]} ]}
  /\ Forall (fun item => needs_compiling client_less_settings item = false)
            ["a.css"; "c.less"]
  /\ Forall (stat_able client_less_settings quiet_host (fs site_world)) ["a.css"; "c.less"]
  /\ exists refs w',
       css_items client_less_settings None quiet_host "plain" true site_world = (Ok refs, w')
       /\ Forall2 (fun item ref => exists t,
                     debug_token client_less_settings quiet_host (fs site_world)
                       (ticks site_world) item t
                     /\ ref = (item ++ "?build=" ++ Py.str t, rel_of item))
                  ["a.css"; "c.less"] refs
       /\ css client_less_settings None quiet_host "plain" MediaNone true site_world
          = (Ok (Py.join Py.nl
                   (map (link_tag client_less_settings
                           (css_media client_less_settings MediaNone)) refs)), w')
       /\ fs w' = fs site_world /\ trace w' = trace site_world
       /\ ticks w' = (ticks site_world + clock_reads ["a.css"; "c.less"])%nat.
Proof.
  assert (Hplain : Forall (fun item => needs_compiling client_less_settings item = false)
                          ["a.css"; "c.less"]).
  { repeat constructor. }
  assert (Hall : Forall (stat_able client_less_settings quiet_host (fs site_world))
                        ["a.css"; "c.less"]).
  { constructor; [right; eexists; reflexivity|].
    constructor; [right; eexists; reflexivity|constructor]. }
  split; [reflexivity|]. split; [exact Hplain|]. split; [exact Hall|].
  exact (css_debug_links_follow_manifest client_less_settings None quiet_host "plain"
           MediaNone site_world _
           {[ "main" := ["a.css"; "b.less"]; "plain" := ["a.css"; "c.less"] ]} _
           eq_refl eq_refl eq_refl Hplain Hall).
Defined.

(** X3. A local item whose file does not exist makes the debug-mode
    helpers fail with [OSError] ([ENOENT]): the items before it have been
    stamped (the clock has been read for the URLs among them), the items
    after it are not looked at, no markup is returned, and neither files
    nor processes have changed. For [css] this is the case when no item
    of the bundle needs compiling. *)
Theorem debug_missing_file_raises
    (settings : Settings) (build : option BuildModule) (host : Host)
    (bundle : string) (defer async : bool) (media : MediaArg) (w : World)
    (bundles : gmap string (gmap string (list string)))
    (found rest : list string) (missing : string) :
  MINIFY_BUNDLES settings = Some bundles ->
  Forall (stat_able settings host (fs w)) found ->
  Py.startswith_any missing url_prefixes = false ->
  fs w !! get_path settings host missing = None ->
  (forall of_js, bundles !! "js" = Some of_js ->
     of_js !! bundle = Some (found ++ missing :: rest)%list ->
     exists w',
       js settings build host bundle true defer async w = (Raise (OSError ENOENT), w')
       /\ fs w' = fs w /\ trace w' = trace w
       /\ ticks w' = (ticks w + clock_reads found)%nat)
  /\ (forall of_css, bundles !! "css" = Some of_css ->
        of_css !! bundle = Some (found ++ missing :: rest)%list ->
        Forall (fun item => needs_compiling settings item = false)
               (found ++ missing :: rest)%list ->
        exists w',
          css settings build host bundle media true w = (Raise (OSError ENOENT), w')
          /\ fs w' = fs w /\ trace w' = trace w
          /\ ticks w' = (ticks w + clock_reads found)%nat).
Proof.
  intros Hm Hfound Hurl Hnone. split.
  - intros of_js Hk Hb.
    pose proof (bundle_sources_present settings "js" bundle w bundles of_js _ Hm Hk Hb)
      as Hsrc.
    destruct (mapM_stops_at_missing_file settings host (fun item => item)
                (fun item t => item ++ "?build=" ++ Py.str t)
                found rest missing w Hfound Hurl Hnone)
      as (w' & Hrun & Hfs & Htr & Htk).
    rewrite map_id in Htk.
    exists w'. split; [|now repeat split].
    unfold js. apply bind_raise. unfold js_items.
    now rewrite (bind_ok _ _ _ _ _ Hsrc).
  - intros of_css Hk Hb Hplain.
    pose proof (bundle_sources_present settings "css" bundle w bundles of_css _ Hm Hk Hb)
      as Hsrc.
    assert (Hfound' : Forall (fun x : string * string =>
                                stat_able settings host (fs w) (fst x))
                             (map (fun item => (item, rel_of item)) found)).
    { apply Forall_map. exact Hfound. }
    destruct (mapM_stops_at_missing_file settings host (fun x : string * string => fst x)
                (fun x t => (fst x ++ "?build=" ++ Py.str t, snd x))
                (map (fun item => (item, rel_of item)) found)
                (map (fun item => (item, rel_of item)) rest)
                (missing, rel_of missing) w Hfound' Hurl Hnone)
      as (w' & Hrun & Hfs & Htr & Htk).
    rewrite map_map in Htk. cbn [fst] in Htk. rewrite map_id in Htk.
    exists w'. split; [|now repeat split].
    unfold css. apply bind_raise. unfold css_items.
    rewrite (bind_ok _ _ _ _ _ Hsrc).
    rewrite (bind_ok _ _ _ _ _ (css_classify_uncompiled settings host _ [] w Hplain)).
    cbn [app]. rewrite map_app. exact Hrun.
Qed.

Lemma debug_missing_file_raises_witness :
  MINIFY_BUNDLES stray_settings
    = Some {[ "css" := {[ "broken" := ["a.css"; "gone.css"; "c.less"];
                          "themed" := ["a.css"; "gone.scss"] ]};
              "js" := {[ "broken" := ["https://cdn.example/app.js"; "gone.js"; "a.js"] ]} ]}
  /\ Forall (stat_able stray_settings quiet_host (fs site_world))
            ["https://cdn.example/app.js"]
  /\ Py.startswith_any "gone.js" url_prefixes = false
  /\ fs site_world !! get_path stray_settings quiet_host "gone.js" = None
  /\ exists w',
       js stray_settings None quiet_host "broken" true false false site_world
       = (Raise (OSError ENOENT), w')
       /\ fs w' = fs site_world /\ trace w' = trace site_world
       /\ ticks w' = (ticks site_world + clock_reads ["https://cdn.example/app.js"])%nat.
Proof.
  assert (Hfound : Forall (stat_able stray_settings quiet_host (fs site_world))
                          ["https://cdn.example/app.js"]).
  { constructor; [left; reflexivity|constructor]. }
  split; [reflexivity|]. split; [exact Hfound|].
  split; [reflexivity|]. split; [reflexivity|].
  exact (proj1 (debug_missing_file_raises stray_settings None quiet_host "broken"
                  false false MediaFalse site_world _
                  ["https://cdn.example/app.js"] ["a.js"] "gone.js"
                  eq_refl Hfound eq_refl eq_refl)
           {[ "broken" := ["https://cdn.example/app.js"; "gone.js"; "a.js"] ]}
           eq_refl eq_refl).
Defined.

(** X4. In debug mode a configuration without [MINIFY_BUNDLES] makes both
    helpers raise [AttributeError], and a manifest without the kind's
    section makes them raise [KeyError] for the kind (['js'] or ['css']);
    in both cases before anything is read from the file system or the
    clock. *)
Theorem debug_without_manifest_raises
    (settings : Settings) (build : option BuildModule) (host : Host)
    (bundle : string) (defer async : bool) (media : MediaArg) (w : World) :
  (MINIFY_BUNDLES settings = None ->
     js settings build host bundle true defer async w
       = (Raise (AttributeError "MINIFY_BUNDLES"), w)
     /\ css settings build host bundle media true w
        = (Raise (AttributeError "MINIFY_BUNDLES"), w))
  /\ (forall bundles, MINIFY_BUNDLES settings = Some bundles ->
        (bundles !! "js" = None ->
           js settings build host bundle true defer async w = (Raise (KeyError "js"), w))
        /\ (bundles !! "css" = None ->
              css settings build host bundle media true w = (Raise (KeyError "css"), w))).
Proof.
  split.
  - intros Hm. split.
    + unfold js, js_items. apply bind_raise, bind_raise.
      unfold bundle_sources. apply bind_raise. now rewrite Hm.
    + unfold css, css_items. apply bind_raise, bind_raise.
      unfold bundle_sources. apply bind_raise. now rewrite Hm.
  - intros bundles Hm. split; intros Hk.
    + unfold js, js_items. apply bind_raise, bind_raise.
      unfold bundle_sources, attr, subscript, bind, ret, raise. now rewrite Hm, Hk.
    + unfold css, css_items. apply bind_raise, bind_raise.
      unfold bundle_sources, attr, subscript, bind, ret, raise. now rewrite Hm, Hk.
Qed.

Lemma debug_without_manifest_raises_witness :
  MINIFY_BUNDLES unconfigured_settings = None
  /\ js unconfigured_settings None quiet_host "app" true false false site_world
     = (Raise (AttributeError "MINIFY_BUNDLES"), site_world)
  /\ css unconfigured_settings None quiet_host "main" MediaFalse true site_world
     = (Raise (AttributeError "MINIFY_BUNDLES"), site_world)
  /\ MINIFY_BUNDLES (with_minify_bundles (Some ∅) site_settings) = Some ∅
  /\ js (with_minify_bundles (Some ∅) site_settings) None quiet_host "app" true false false
       site_world = (Raise (KeyError "js"), site_world)
  /\ css (with_minify_bundles (Some ∅) site_settings) None quiet_host "main" MediaFalse true
       site_world = (Raise (KeyError "css"), site_world).
Proof.
  destruct (debug_without_manifest_raises unconfigured_settings None quiet_host "app"
              false false MediaFalse site_world) as [Hunset _].
  destruct (debug_without_manifest_raises unconfigured_settings None quiet_host "main"
              false false MediaFalse site_world) as [Hunset' _].
  destruct (debug_without_manifest_raises (with_minify_bundles (Some ∅) site_settings)
              None quiet_host "app" false false MediaFalse site_world) as [_ Hjs].
  destruct (debug_without_manifest_raises (with_minify_bundles (Some ∅) site_settings)
              None quiet_host "main" false false MediaFalse site_world) as [_ Hcss].
  split; [reflexivity|].
  split; [exact (proj1 (Hunset eq_refl))|].
  split; [exact (proj2 (Hunset' eq_refl))|].
  split; [reflexivity|].
  split; [exact (proj1 (Hjs ∅ eq_refl) eq_refl)|exact (proj2 (Hcss ∅ eq_refl) eq_refl)].
Defined.

(** X5. A bundle that the manifest lists with no items renders, in debug
    mode, as the empty markup: no tag is written and nothing is read. *)
Theorem debug_empty_bundle_renders_nothing
    (settings : Settings) (build : option BuildModule) (host : Host)
    (bundle : string) (defer async : bool) (media : MediaArg) (w : World)
    (bundles : gmap string (gmap string (list string))) :
  MINIFY_BUNDLES settings = Some bundles ->
  (forall of_js, bundles !! "js" = Some of_js -> of_js !! bundle = Some [] ->
     js settings build host bundle true defer async w = (Ok "", w))
  /\ (forall of_css, bundles !! "css" = Some of_css -> of_css !! bundle = Some [] ->
        css settings build host bundle media true w = (Ok "", w)).
Proof.
  intros Hm. split; intros of_kind Hk Hb.
  - pose proof (bundle_sources_present settings "js" bundle w bundles of_kind _ Hm Hk Hb)
      as Hsrc.
    unfold js, js_items, bind. now rewrite Hsrc.
  - pose proof (bundle_sources_present settings "css" bundle w bundles of_kind _ Hm Hk Hb)
      as Hsrc.
    unfold css, css_items, bind. now rewrite Hsrc.
Qed.

Lemma debug_empty_bundle_renders_nothing_witness :
  MINIFY_BUNDLES hollow_settings
    = Some {[ "css" := {[ "none" := [] ]}; "js" := {[ "none" := [] ]} ]}
  /\ js hollow_settings None quiet_host "none" true true true site_world = (Ok "", site_world)
  /\ css hollow_settings None quiet_host "none" MediaFalse true site_world
     = (Ok "", site_world).
Proof.
  destruct (debug_empty_bundle_renders_nothing hollow_settings None quiet_host "none"
              true true MediaFalse site_world _ eq_refl) as [Hjs Hcss].
  split; [reflexivity|].
  split; [exact (Hjs {[ "none" := [] ]} eq_refl eq_refl)
         |exact (Hcss {[ "none" := [] ]} eq_refl eq_refl)].
Defined.

(** ** Build ids *)

(** X6. The import of the build data is all or nothing. When the [build]
    module defines all four names they are used as they are; when it lacks
    any one of them (or does not exist) every id falls back to ['dev'] and
    the bundle hashes to the empty mapping, whatever the module does
    define. *)
Theorem import_build_all_or_nothing (m : BuildModule) :
  (forall c j i h,
     mod_BUILD_ID_CSS m = Some c -> mod_BUILD_ID_JS m = Some j ->
     mod_BUILD_ID_IMG m = Some i -> mod_BUNDLE_HASHES m = Some h ->
     import_build (Some m) = mkBuildIds c j i h)
  /\ (mod_BUILD_ID_CSS m = None \/ mod_BUILD_ID_JS m = None
      \/ mod_BUILD_ID_IMG m = None \/ mod_BUNDLE_HASHES m = None ->
      import_build (Some m) = mkBuildIds "dev" "dev" "dev" ∅
      /\ import_build (Some m) = import_build None
      /\ forall kind bundle global_id,
           bundle_build_id (Some m) kind bundle global_id = global_id).
Proof.
  destruct m as [c j i h]. cbn [mod_BUILD_ID_CSS mod_BUILD_ID_JS mod_BUILD_ID_IMG
                                 mod_BUNDLE_HASHES].
  split.
  - intros c' j' i' h' -> -> -> ->. reflexivity.
  - intros Hnone.
    assert (Himp : import_build (Some (mkBuildModule c j i h))
                   = mkBuildIds "dev" "dev" "dev" ∅).
    { destruct c, j, i, h; try reflexivity.
      destruct Hnone as [H|[H|[H|H]]]; discriminate H. }
    split; [exact Himp|]. split; [exact Himp|].
    intros kind bundle global_id. unfold bundle_build_id, ids.
    rewrite Himp. cbn [BUNDLE_HASHES]. now rewrite lookup_empty.
Qed.

Lemma import_build_all_or_nothing_witness :
  mod_BUILD_ID_CSS site_build = Some "abc123"
  /\ import_build (Some site_build) = mkBuildIds "abc123" "def456" "0a1b2c" {[ "js:app" := "77fe" ]}
  /\ mod_BUNDLE_HASHES partial_build = None
  /\ import_build (Some partial_build) = mkBuildIds "dev" "dev" "dev" ∅
  /\ bundle_build_id (Some partial_build) "js" "app"
       (BUILD_ID_JS (import_build (Some partial_build))) = "dev".
Proof.
  destruct (import_build_all_or_nothing site_build) as [Hfull _].
  destruct (import_build_all_or_nothing partial_build) as [_ Hpartial].
  destruct (Hpartial (or_intror (or_intror (or_intror eq_refl)))) as (Hdev & _ & Hid).
  split; [reflexivity|].
  split; [exact (Hfull _ _ _ _ eq_refl eq_refl eq_refl eq_refl)|].
  split; [reflexivity|]. split; [exact Hdev|].
  rewrite Hid, Hdev. reflexivity.
Defined.

(** X7. The context processor exposes exactly three entries,
    [BUILD_ID_CSS], [BUILD_ID_JS] and [BUILD_ID_IMG], and the css and js
    values are the tokens of the production references of every bundle
    without an entry in [BUNDLE_HASHES]. *)
Theorem build_ids_are_the_production_tokens
    (settings : Settings) (build : option BuildModule) (host : Host)
    (bundle : string) (w : World) :
  build_ids build !! "BUILD_ID_CSS" = Some (BUILD_ID_CSS (ids build))
  /\ build_ids build !! "BUILD_ID_JS" = Some (BUILD_ID_JS (ids build))
  /\ build_ids build !! "BUILD_ID_IMG" = Some (BUILD_ID_IMG (ids build))
  /\ (forall key, key <> "BUILD_ID_CSS" -> key <> "BUILD_ID_JS" -> key <> "BUILD_ID_IMG" ->
                  build_ids build !! key = None)
  /\ (forall token, build_ids build !! "BUILD_ID_JS" = Some token ->
        BUNDLE_HASHES (ids build) !! ("js:" ++ bundle) = None ->
        js_items settings build host bundle false w
        = (Ok ["js/" ++ bundle ++ "-min.js?build=" ++ token], w))
  /\ (forall token, build_ids build !! "BUILD_ID_CSS" = Some token ->
        BUNDLE_HASHES (ids build) !! ("css:" ++ bundle) = None ->
        css_items settings build host bundle false w
        = (Ok [("css/" ++ bundle ++ "-min.css?build=" ++ token, "stylesheet")], w)).
Proof.
  assert (Hcss : build_ids build !! "BUILD_ID_CSS" = Some (BUILD_ID_CSS (ids build))).
  { unfold build_ids. now rewrite lookup_insert_eq. }
  assert (Hjs : build_ids build !! "BUILD_ID_JS" = Some (BUILD_ID_JS (ids build))).
  { unfold build_ids. rewrite lookup_insert_ne by discriminate.
    now rewrite lookup_insert_eq. }
  assert (Himg : build_ids build !! "BUILD_ID_IMG" = Some (BUILD_ID_IMG (ids build))).
  { unfold build_ids. rewrite !lookup_insert_ne by discriminate.
    now rewrite lookup_singleton_eq. }
  split; [exact Hcss|]. split; [exact Hjs|]. split; [exact Himg|].
  split; [|split].
  - intros key H1 H2 H3. unfold build_ids.
    rewrite !lookup_insert_ne by congruence. now rewrite lookup_singleton_ne.
  - intros token Htok Hnone. rewrite Hjs in Htok. injection Htok as <-.
    unfold js_items, ret, bundle_build_id.
    change ("js" ++ ":" ++ bundle) with ("js:" ++ bundle). now rewrite Hnone.
  - intros token Htok Hnone. rewrite Hcss in Htok. injection Htok as <-.
    unfold css_items, ret, bundle_build_id.
    change ("css" ++ ":" ++ bundle) with ("css:" ++ bundle). now rewrite Hnone.
Qed.

Lemma build_ids_are_the_production_tokens_witness :
  build_ids (Some site_build) !! "BUILD_ID_CSS" = Some "abc123"
  /\ BUNDLE_HASHES (ids (Some site_build)) !! ("css:" ++ "main") = None
  /\ css_items site_settings (Some site_build) quiet_host "main" false site_world
     = (Ok [("css/" ++ "main" ++ "-min.css?build=" ++ "abc123", "stylesheet")], site_world).
Proof.
  destruct (build_ids_are_the_production_tokens site_settings (Some site_build)
              quiet_host "main" site_world) as (_ & _ & _ & _ & _ & Hcss).
  split; [reflexivity|]. split; [reflexivity|].
  exact (Hcss "abc123" eq_refl eq_refl).
Defined.

(** ** What a call to [compile_css] can and cannot change *)

Section CompileFrame.

Context (settings : Settings) (host : Host).

(** Whatever its outcome, the [Popen] branch changes nothing, or writes
    the destination and starts at most one process. *)
Lemma open_then_Popen_any (name : string) (bin : option string)
    (path_src path_dst : string) (wa w' : World) (r : Result unit) :
  (open_w host path_dst >>
   let* b := attr name bin in
   subprocess_Popen host [b; path_src] path_dst) wa = (r, w') ->
  (fs w' = fs wa \/ exists n, fs w' = <[path_dst := n]> (fs wa))
  /\ (ticks wa <= ticks w')%nat
  /\ (trace w' = trace wa \/ exists e, trace w' = e :: trace wa).
Proof.
  unfold bind, open_w, attr, subprocess_Popen, touch, raise, ret.
  destruct (open_refused host path_dst wa).
  { intros [= <- <-]. repeat split; auto. }
  destruct bin as [b|]; cbn.
  - destruct (exec_errno host b); intros [= <- <-]; cbn;
      (split; [right; eauto|split; [lia|eauto]]).
  - intros [= <- <-]. cbn. split; [right; eauto|split; [lia|eauto]].
Qed.

(** Whatever its outcome, the shell branch changes nothing, or starts one
    process that may write the destination. *)
Lemma shell_branch_any (name : string) (bin : option string) (cmd : string -> string)
    (path_dst : string) (wa w' : World) (r : Result unit) :
  (let* b := attr name bin in
   subprocess_call_shell host (cmd b) path_dst) wa = (r, w') ->
  (fs w' = fs wa \/ exists n, fs w' = <[path_dst := n]> (fs wa))
  /\ (ticks wa <= ticks w')%nat
  /\ (trace w' = trace wa \/ exists e, trace w' = e :: trace wa).
Proof.
  unfold bind, attr, subprocess_call_shell, touch, raise, ret.
  destruct bin as [b|]; cbn; [|intros [= <- <-]; repeat split; auto].
  destruct (open_refused host path_dst _); intros [= <- <-]; cbn.
  - split; [now left|split; [lia|eauto]].
  - split; [right; eauto|split; [lia|eauto]].
Qed.

Lemma not_preprocessor_cases (item : string) :
  is_preprocessor item = false ->
  Py.endswith item ".less" = false
  /\ Py.endswith_any item [".sass"; ".scss"] = false
  /\ Py.endswith item ".styl" = false.
Proof.
  unfold is_preprocessor, Py.endswith_any. simpl existsb.
  destruct (Py.endswith item ".less"); [discriminate|].
  destruct (Py.endswith item ".sass"); [discriminate|].
  destruct (Py.endswith item ".scss"); [discriminate|].
  destruct (Py.endswith item ".styl"); [discriminate|].
  now repeat split.
Qed.

(** Two suffixes of the same length that both end a string are equal, so
    at most one of the extension tests of [recompile] holds. *)
Lemma endswith_same_length (s a b : string) :
  String.length a = String.length b ->
  Py.endswith s a = true -> Py.endswith s b = true -> a = b.
Proof.
  unfold Py.endswith. intros Hlen. rewrite Hlen.
  rewrite !andb_true_iff, !String.eqb_eq. intros [_ Ha] [_ Hb]. congruence.
Qed.

(** The two steps of [recompile], whatever the outcome: the directory
    step only adds directories on the way to the destination, the
    compiler step writes at most the destination and starts at most one
    process; for an item that is not in a preprocessor language the
    compiler step does nothing. *)
Lemma recompile_any (item path_src path_dst : string) (w w' : World) (r : Result unit) :
  recompile settings host item path_src path_dst w = (r, w') ->
  exists wa,
    only_adds_directories host (Py.dirname path_dst) w wa
    /\ (fs w' = fs wa \/ exists n, fs w' = <[path_dst := n]> (fs wa))
    /\ (ticks wa <= ticks w')%nat
    /\ (trace w' = trace wa \/ exists e, trace w' = e :: trace wa)
    /\ (is_preprocessor item = false -> w' = wa).
Proof.
  unfold recompile. unfold bind at 1.
  destruct (ensure_path_exists host (Py.dirname path_dst) w) as [rd wa] eqn:Hdir.
  intros Hrun. exists wa.
  split; [exact (ensure_path_exists_effect _ _ _ _ _ Hdir)|].
  destruct rd as [[]|e].
  2:{ injection Hrun as <- <-. repeat split; auto. }
  destruct (Py.endswith item ".less") eqn:Hless.
  { destruct (open_then_Popen_any _ _ _ _ _ _ _ Hrun) as (H1 & H2 & H3).
    repeat split; auto. intros Hpre.
    destruct (not_preprocessor_cases item Hpre) as (H & _ & _). congruence. }
  destruct (Py.endswith_any item [".sass"; ".scss"]) eqn:Hsass.
  { destruct (open_then_Popen_any _ _ _ _ _ _ _ Hrun) as (H1 & H2 & H3).
    repeat split; auto. intros Hpre.
    destruct (not_preprocessor_cases item Hpre) as (_ & H & _). congruence. }
  destruct (Py.endswith item ".styl") eqn:Hstyl.
  { destruct (shell_branch_any _ _
                (fun b => b ++ " --include-css --include " ++ Py.dirname path_src
                            ++ " < " ++ path_src ++ " > " ++ path_dst)
                _ _ _ _ Hrun) as (H1 & H2 & H3).
    repeat split; auto. intros Hpre.
    destruct (not_preprocessor_cases item Hpre) as (_ & _ & H). congruence. }
  injection Hrun as <- <-. repeat split; auto.
Qed.

(** With the source in place, [compile_css] leaves the world alone or
    runs [recompile]; without it, it raises and leaves the world alone. *)
Lemma compile_css_any (item : string) (w : World) :
  snd (compile_css settings host item w) = w
  \/ (exists n_src,
        fs w !! get_path settings host item = Some n_src
        /\ destination_is_stale (st_mtime n_src)
             (fs w !! get_path settings host (item ++ ".css"))
        /\ compile_css settings host item w
           = recompile settings host item (get_path settings host item)
               (get_path settings host (item ++ ".css")) w).
Proof.
  destruct (fs w !! get_path settings host item) as [n_src|] eqn:Hsrc.
  - destruct (fresh_or_stale (st_mtime n_src)
                (fs w !! get_path settings host (item ++ ".css"))) as [Hf|Hs].
    + left. now rewrite (compile_css_fresh _ _ _ _ _ Hsrc Hf).
    + right. exists n_src. split; [reflexivity|]. split; [exact Hs|].
      exact (compile_css_stale _ _ _ _ _ Hsrc Hs).
  - left. now rewrite (compile_css_source_missing _ _ _ _ Hsrc).
Qed.

End CompileFrame.


(** X9. For an item that is not written in a preprocessor language (none
    of [.less], [.sass], [.scss], [.styl]), [compile_css] starts no
    process and writes no file: regular files stay as they are, nothing
    is removed, and whatever is new is a directory on the way to the
    would-be destination. *)
Theorem compile_css_ignores_plain_items
    (settings : Settings) (host : Host) (item : string) (w : World) :
  is_preprocessor item = false ->
  let w' := snd (compile_css settings host item w) in
  let dir := Py.dirname (get_path settings host (item ++ ".css")) in
  trace w' = trace w
  /\ (forall p n, fs w !! p = Some n -> node_kind n = RegularFile -> fs w' !! p = Some n)
  /\ (forall p, is_Some (fs w !! p) -> is_Some (fs w' !! p))
  /\ (forall p, fs w !! p = None -> is_Some (fs w' !! p) ->
                In p (parents (String.length dir) dir ++ [dir])%list
                /\ exists t, fs w' !! p = Some (mkNode Directory t)).
Proof.
  intros Hpre w' dir. subst w' dir.
  destruct (compile_css_any settings host item w) as [->|(n_src & _ & _ & ->)].
  { split; [reflexivity|]. split; [intros p n Hp _; exact Hp|].
    split; [auto|]. intros p Hnone [x Hx]. congruence. }
  destruct (recompile settings host item (get_path settings host item)
              (get_path settings host (item ++ ".css")) w) as [r w'] eqn:Hrun.
  cbn [snd].
  destruct (recompile_any _ _ _ _ _ _ _ _ Hrun) as (wa & Hdir & _ & _ & _ & Hsame).
  rewrite (Hsame Hpre). pose proof Hdir as (Htra & _ & Hq).
  split; [exact Htra|]. split; [|split].
  - intros p n Hp _.
    rewrite (only_adds_directories_keeps _ _ _ _ p Hdir); [exact Hp|eauto].
  - intros p Hp. now rewrite (only_adds_directories_keeps _ _ _ _ p Hdir Hp).
  - intros p Hnone Hsome.
    destruct (Hq p) as [Heq|(_ & Hin & _ & k & _ & Hnode)].
    + rewrite Heq, Hnone in Hsome. now destruct Hsome.
    + split; [exact Hin|eauto].
Qed.

Lemma compile_css_ignores_plain_items_witness :
  let w' := snd (compile_css site_settings checkout_host "notes.txt" checkout_world) in
  is_preprocessor "notes.txt" = false
  /\ trace w' = trace checkout_world
  /\ fs w' !! "/app/static/notes.txt" = Some (mkNode RegularFile 4)
  /\ fs checkout_world !! "/srv" = None
  /\ fs w' !! "/srv" = Some (mkNode Directory 1000)
  /\ fs w' !! "/srv/static" = Some (mkNode Directory 1001)
  /\ fs w' !! "/srv/static/notes.txt.css" = None.
Proof.
  assert (Hpre : is_preprocessor "notes.txt" = false) by reflexivity.
  destruct (compile_css_ignores_plain_items site_settings checkout_host "notes.txt"
              checkout_world Hpre) as (Htr & Hfiles & _ & _).
  cbv zeta. split; [exact Hpre|]. split; [exact Htr|].
  split; [exact (Hfiles "/app/static/notes.txt" (mkNode RegularFile 4) eq_refl eq_refl)|].
  repeat split; vm_compute; reflexivity.
Defined.

(** ** Failures on the way to a compiled stylesheet *)

(** X10. In debug mode, when the first item of a css bundle that needs
    compiling has no source file, [css] fails with [OSError] ([ENOENT])
    raised by [compile_css]: nothing has been read for the items before
    it, no directory is created, no process is started. *)
Theorem css_debug_missing_source_raises
    (settings : Settings) (build : option BuildModule) (host : Host)
    (bundle : string) (media : MediaArg) (w : World)
    (bundles : gmap string (gmap string (list string)))
    (of_css : gmap string (list string))
    (plain rest : list string) (item : string) :
  MINIFY_BUNDLES settings = Some bundles ->
  bundles !! "css" = Some of_css ->
  of_css !! bundle = Some (plain ++ item :: rest)%list ->
  Forall (fun i => needs_compiling settings i = false) plain ->
  needs_compiling settings item = true ->
  fs w !! get_path settings host item = None ->
  css settings build host bundle media true w = (Raise (OSError ENOENT), w).
Proof.
  intros Hm Hk Hb Hplain Hitem Hnone.
  pose proof (bundle_sources_present settings "css" bundle w bundles of_css _ Hm Hk Hb)
    as Hsrc.
  unfold css. apply bind_raise. unfold css_items.
  rewrite (bind_ok _ _ _ _ _ Hsrc). apply bind_raise.
  rewrite (css_classify_compiled settings host plain rest item [] w Hplain Hitem).
  now rewrite (compile_css_source_missing settings host item w Hnone).
Qed.

Lemma css_debug_missing_source_raises_witness :
  MINIFY_BUNDLES stray_settings
    = Some {[ "css" := {[ "broken" := ["a.css"; "gone.css"; "c.less"];
                          "themed" := ["a.css"; "gone.scss"] ]};
              "js" := {[ "broken" := ["https://cdn.example/app.js"; "gone.js"; "a.js"] ]} ]}
  /\ Forall (fun i => needs_compiling stray_settings i = false) ["a.css"]
  /\ needs_compiling stray_settings "gone.scss" = true
  /\ fs site_world !! get_path stray_settings quiet_host "gone.scss" = None
  /\ css stray_settings None quiet_host "themed" MediaFalse true site_world
     = (Raise (OSError ENOENT), site_world).
Proof.
  assert (Hplain : Forall (fun i => needs_compiling stray_settings i = false) ["a.css"]).
  { repeat constructor. }
  split; [reflexivity|]. split; [exact Hplain|].
  split; [reflexivity|]. split; [reflexivity|].
  exact (css_debug_missing_source_raises stray_settings None quiet_host "themed"
           MediaFalse site_world _
           {[ "broken" := ["a.css"; "gone.css"; "c.less"];
              "themed" := ["a.css"; "gone.scss"] ]}
           ["a.css"] [] "gone.scss" eq_refl eq_refl eq_refl Hplain eq_refl eq_refl).
Defined.



(** X12. A [.less] compile that cannot start its compiler is not retried.
    With a stale destination in an existing directory, [compile_css]
    opens (and so creates or truncates) the destination before it looks up
    [LESS_BIN] and starts the process. When [LESS_BIN] is not configured,
    or the program cannot be started, the call raises with no process
    started, but the destination now exists, stamped with the current
    clock reading; unless that reading is 0 or earlier than the source's
    mtime, the next call finds it fresh and returns normally without
    compiling. *)
Theorem failed_less_start_is_not_retried
    (settings : Settings) (host : Host) (item : string) (w : World) (n_src : Node) :
  Py.endswith item ".less" = true ->
  fs w !! get_path settings host item = Some n_src ->
  get_path settings host item <> get_path settings host (item ++ ".css") ->
  destination_is_stale (st_mtime n_src)
    (fs w !! get_path settings host (item ++ ".css")) ->
  is_Some (fs w !! Py.dirname (get_path settings host (item ++ ".css"))) ->
  open_refused host (get_path settings host (item ++ ".css")) w = None ->
  (LESS_BIN settings = None
   \/ exists b errno, LESS_BIN settings = Some b /\ exec_errno host b = Some errno) ->
  ~ (clock host (ticks w) == 0)%Q ->
  (st_mtime n_src <= clock host (ticks w))%Q ->
  exists e w1,
    compile_css settings host item w = (Raise e, w1)
    /\ (e = AttributeError "LESS_BIN" \/ exists errno, e = OSError errno)
    /\ trace w1 = trace w
    /\ fs w1 !! get_path settings host (item ++ ".css")
       = Some (mkNode RegularFile (clock host (ticks w)))
    /\ compile_css settings host item w1 = (Ok tt, w1).
Proof.
  intros Hless Hsrc Hne Hstale Hdir Hopen Hbin Hnz Hle.
  set (path_dst := get_path settings host (item ++ ".css")) in *.
  pose (w1 := touch host RegularFile path_dst w).
  assert (Hsrc1 : fs w1 !! get_path settings host item = Some n_src).
  { unfold w1, touch. cbn. now rewrite lookup_insert_ne by congruence. }
  assert (Hdst1 : fs w1 !! path_dst = Some (mkNode RegularFile (clock host (ticks w)))).
  { unfold w1, touch. cbn. apply lookup_insert_eq. }
  assert (Hsecond : compile_css settings host item w1 = (Ok tt, w1)).
  { apply (compile_css_fresh settings host item w1 n_src Hsrc1).
    fold path_dst. rewrite Hdst1. now split. }
  assert (Hrun : exists e,
            compile_css settings host item w = (Raise e, w1)
            /\ (e = AttributeError "LESS_BIN" \/ exists errno, e = OSError errno)).
  { rewrite (compile_css_stale _ _ _ _ _ Hsrc Hstale). fold path_dst.
    unfold recompile.
    rewrite (bind_ok _ _ _ _ _ (ensure_path_exists_existing host _ w Hdir)).
    rewrite Hless.
    assert (Hopen' : open_w host path_dst w = (Ok tt, w1)).
    { unfold open_w. now rewrite Hopen. }
    rewrite (bind_ok _ _ _ _ _ Hopen').
    destruct Hbin as [Hnone|(b & errno & Hb & Hexec)].
    - exists (AttributeError "LESS_BIN"). split; [|now left].
      apply bind_raise. now rewrite Hnone.
    - exists (OSError errno). split; [|right; eauto].
      rewrite Hb. unfold bind, attr, ret, subprocess_Popen. cbn. now rewrite Hexec. }
  destruct Hrun as (e & Hrun & He).
  exists e, w1. split; [exact Hrun|]. split; [exact He|].
  split; [reflexivity|]. split; [exact Hdst1|exact Hsecond].
Qed.

Lemma failed_less_start_is_not_retried_witness :
  Py.endswith "b.less" ".less" = true
  /\ fs site_world !! get_path no_lessc_settings quiet_host "b.less"
     = Some (mkNode RegularFile 9)
  /\ LESS_BIN no_lessc_settings = None
  /\ exists e w1,
       compile_css no_lessc_settings quiet_host "b.less" site_world = (Raise e, w1)
       /\ (e = AttributeError "LESS_BIN" \/ exists errno, e = OSError errno)
       /\ trace w1 = trace site_world
       /\ fs w1 !! get_path no_lessc_settings quiet_host ("b.less" ++ ".css")
          = Some (mkNode RegularFile (clock quiet_host (ticks site_world)))
       /\ compile_css no_lessc_settings quiet_host "b.less" w1 = (Ok tt, w1).
Proof.
  split; [reflexivity|]. split; [reflexivity|]. split; [reflexivity|].
  apply (failed_less_start_is_not_retried no_lessc_settings quiet_host "b.less"
           site_world (mkNode RegularFile 9)).
  - reflexivity.
  - reflexivity.
  - intros H; discriminate H.
  - exact I.
  - eexists; reflexivity.
  - reflexivity.
  - left; reflexivity.
  - exact (proj1 (quiet_clock_is_late 0)).
  - exact (proj2 (quiet_clock_is_late 0)).
Defined.

(** ** Which compiler is started *)

Lemma sass_is_not_less (item : string) :
  Py.endswith_any item [".sass"; ".scss"] = true -> Py.endswith item ".less" = false.
Proof.
  unfold Py.endswith_any. simpl existsb. rewrite orb_false_r.
  intros H. destruct (Py.endswith item ".less") eqn:Hless; [|reflexivity].
  apply orb_true_iff in H. destruct H as [H|H].
  - pose proof (endswith_same_length item ".less" ".sass" eq_refl Hless H) as Heq.
    discriminate Heq.
  - pose proof (endswith_same_length item ".less" ".scss" eq_refl Hless H) as Heq.
    discriminate Heq.
Qed.

Lemma styl_is_neither_less_nor_sass (item : string) :
  Py.endswith item ".styl" = true ->
  Py.endswith item ".less" = false /\ Py.endswith_any item [".sass"; ".scss"] = false.
Proof.
  intros Hstyl. unfold Py.endswith_any. simpl existsb. rewrite orb_false_r.
  destruct (Py.endswith item ".less") eqn:Hless.
  { pose proof (endswith_same_length item ".less" ".styl" eq_refl Hless Hstyl) as Heq.
    discriminate Heq. }
  destruct (Py.endswith item ".sass") eqn:Hsass.
  { pose proof (endswith_same_length item ".sass" ".styl" eq_refl Hsass Hstyl) as Heq.
    discriminate Heq. }
  destruct (Py.endswith item ".scss") eqn:Hscss.
  { pose proof (endswith_same_length item ".scss" ".styl" eq_refl Hscss Hstyl) as Heq.
    discriminate Heq. }
  now split.
Qed.

(** X13. When the destination of an existing source is stale and the
    host refuses nothing, [compile_css] returns normally having started
    exactly the compiler that goes with the extension: for [.less] the
    program [LESS_BIN] with the resolved source path as its only argument
    and its output sent to the destination; for [.sass] and [.scss] the
    program [SASS_BIN] in the same way; for [.styl] a shell running
    [STYLUS_BIN] with [--include-css], the source's directory as include
    path, the source as input and the destination as output. *)
Theorem compile_css_starts_the_matching_compiler
    (settings : Settings) (host : Host) (item : string) (w : World) (n_src : Node) :
  fs w !! get_path settings host item = Some n_src ->
  destination_is_stale (st_mtime n_src)
    (fs w !! get_path settings host (item ++ ".css")) ->
  host_refuses_nothing host ->
  open_refused host (get_path settings host (item ++ ".css")) w = None ->
  Py.dirname (get_path settings host (item ++ ".css"))
    <> get_path settings host (item ++ ".css") ->
  let path_src := get_path settings host item in
  let path_dst := get_path settings host (item ++ ".css") in
  let outcome := compile_css settings host item w in
  (Py.endswith item ".less" = true ->
     forall b, LESS_BIN settings = Some b ->
       fst outcome = Ok tt
       /\ trace (snd outcome) = Popen [b; path_src] path_dst :: trace w)
  /\ (Py.endswith_any item [".sass"; ".scss"] = true ->
        forall b, SASS_BIN settings = Some b ->
          fst outcome = Ok tt
          /\ trace (snd outcome) = Popen [b; path_src] path_dst :: trace w)
  /\ (Py.endswith item ".styl" = true ->
        forall b, STYLUS_BIN settings = Some b ->
          fst outcome = Ok tt
          /\ trace (snd outcome)
             = ShellCall (b ++ " --include-css --include " ++ Py.dirname path_src
                            ++ " < " ++ path_src ++ " > " ++ path_dst) :: trace w).
Proof.
  intros Hsrc Hstale Hhost Hopen Hdir path_src path_dst outcome.
  subst outcome. rewrite (compile_css_stale _ _ _ _ _ Hsrc Hstale).
  fold path_src path_dst. fold path_dst in Hopen, Hdir.
  destruct (Hhost (Py.dirname path_dst)) as (Hmk & _ & _).
  destruct (ensure_destination_directory host path_dst w
              (or_intror (or_introl Hmk)) Hopen Hdir)
    as (wa & Hens & Htr & _ & Hopen').
  assert (Hpopen : forall name bin b, bin = Some b ->
            let outcome :=
              (open_w host path_dst >>
               let* b := attr name bin in
               subprocess_Popen host [b; path_src] path_dst) wa in
            fst outcome = Ok tt
            /\ trace (snd outcome) = Popen [b; path_src] path_dst :: trace w).
  { intros name bin b ->. destruct (Hhost b) as (_ & _ & Hexec).
    unfold bind, open_w, attr, subprocess_Popen. rewrite Hopen'. cbn.
    rewrite Hexec. cbn. now rewrite Htr. }
  unfold recompile. rewrite (bind_ok _ _ _ _ _ Hens).
  split; [|split].
  - intros Hless b Hb. rewrite Hless. now apply (Hpopen "LESS_BIN" (LESS_BIN settings)).
  - intros Hsass b Hb. rewrite (sass_is_not_less item Hsass), Hsass.
    now apply (Hpopen "SASS_BIN" (SASS_BIN settings)).
  - intros Hstyl b Hb.
    destruct (styl_is_neither_less_nor_sass item Hstyl) as [Hl Hs].
    rewrite Hl, Hs, Hstyl, Hb.
    unfold bind, attr, ret, subprocess_call_shell.
    unfold open_refused in *. cbn [fs]. rewrite Hopen'. cbn. now rewrite Htr.
Qed.

Lemma compile_css_starts_the_matching_compiler_witness :
  fs app_world !! get_path site_settings app_host "b.less"
     = Some (mkNode RegularFile 9)
  /\ destination_is_stale 9
       (fs app_world !! get_path site_settings app_host ("b.less" ++ ".css"))
  /\ host_refuses_nothing app_host
  /\ Py.endswith "b.less" ".less" = true
  /\ LESS_BIN site_settings = Some "lessc"
  /\ fst (compile_css site_settings app_host "b.less" app_world) = Ok tt
  /\ trace (snd (compile_css site_settings app_host "b.less" app_world))
     = Popen ["lessc"; "/app/static/b.less"] "/srv/static/b.less.css" :: trace app_world.
Proof.
  assert (Hhost : host_refuses_nothing app_host) by (intros p; repeat split).
  destruct (compile_css_starts_the_matching_compiler site_settings app_host "b.less"
              app_world (mkNode RegularFile 9) eq_refl I Hhost eq_refl
              (fun H => ltac:(discriminate H))) as (Hless & _ & _).
  split; [reflexivity|]. split; [exact I|].
  split; [exact Hhost|]. split; [reflexivity|]. split; [reflexivity|].
  exact (Hless eq_refl "lessc" eq_refl).
Defined.

(** ** Where files are looked for *)

Section Finder.

Context (settings : Settings) (build : option BuildModule).

Lemma get_path_without_finder (host : Host) (path : string) :
  Py.getattr (DEBUG settings) false && use_static settings = false ->
  get_path settings host path = Py.path_join (get_media_root settings) path.
Proof. intros H. unfold get_path. now rewrite H. Qed.

Lemma mapM_ext {A B} (f g : A -> M B) (l : list A) :
  (forall x w, f x w = g x w) -> forall w, mapM f l w = mapM g l w.
Proof.
  intros Hfg. induction l as [|x l IH]; intros w; [reflexivity|].
  cbn [mapM]. unfold bind at 1 3. rewrite Hfg.
  destruct (g x w) as [[y|e] w1]; [|reflexivity].
  unfold bind. rewrite IH. reflexivity.
Qed.

(** Two hosts that differ at most in their staticfiles lookup. *)
Lemma same_but_finder (host : Host) (finder' : string -> option string) :
  Py.getattr (DEBUG settings) false && use_static settings = false ->
  let host' := mkHost (clock host) finder' (makedirs_errno host) (open_errno host)
                 (exec_errno host) in
  (forall item w, _get_mtime settings host' item w = _get_mtime settings host item w)
  /\ (forall item w, compile_css settings host' item w = compile_css settings host item w).
Proof.
  intros Hoff host'. split.
  - intros item w. unfold _get_mtime. now rewrite !get_path_without_finder.
  - intros item w. unfold compile_css. now rewrite !get_path_without_finder.
Qed.

Lemma css_classify_same_but_finder (host : Host) (finder' : string -> option string)
    (sources : list string) (items : list (string * string)) (w : World) :
  Py.getattr (DEBUG settings) false && use_static settings = false ->
  css_classify settings
    (mkHost (clock host) finder' (makedirs_errno host) (open_errno host) (exec_errno host))
    sources items w
  = css_classify settings host sources items w.
Proof.
  intros Hoff. revert items w.
  induction sources as [|item rest IH]; intros items w; [reflexivity|].
  cbn [css_classify]. destruct (needs_compiling settings item).
  - unfold bind at 1 3. rewrite (proj2 (same_but_finder host finder' Hoff)).
    reflexivity.
  - destruct (Py.endswith item ".less"); apply IH.
Qed.

End Finder.

(** X14. Django's staticfiles lookup is consulted only when [DEBUG] is on
    and [JINGO_MINIFY_USE_STATIC] is not switched off. Otherwise every
    path is resolved under the configured root, and [js], [css] (in
    either mode) and [compile_css] give the same result and leave the
    same state whatever the lookup would have answered. *)
Theorem staticfiles_lookup_only_in_debug
    (settings : Settings) (build : option BuildModule) (host : Host)
    (finder' : string -> option string) :
  Py.getattr (DEBUG settings) false && use_static settings = false ->
  let host' := mkHost (clock host) finder' (makedirs_errno host) (open_errno host)
                 (exec_errno host) in
  (forall path, get_path settings host' path = Py.path_join (get_media_root settings) path)
  /\ (forall item w, compile_css settings host' item w = compile_css settings host item w)
  /\ (forall bundle debug defer async w,
        js settings build host' bundle debug defer async w
        = js settings build host bundle debug defer async w)
  /\ (forall bundle media debug w,
        css settings build host' bundle media debug w
        = css settings build host bundle media debug w).
Proof.
  intros Hoff host'.
  destruct (same_but_finder settings host finder' Hoff) as [Hmtime Hcompile].
  fold host' in Hmtime, Hcompile.
  split; [intros path; now apply get_path_without_finder|].
  split; [exact Hcompile|]. split.
  - intros bundle debug defer async w. unfold js.
    assert (Hitems : js_items settings build host' bundle debug w
                     = js_items settings build host bundle debug w).
    { unfold js_items. destruct debug; [|reflexivity].
      unfold bind at 1 3. destruct (bundle_sources settings "js" bundle w) as [[l|e] w1];
        [|reflexivity].
      apply mapM_ext. intros x w2. unfold bind. now rewrite Hmtime. }
    unfold bind. now rewrite Hitems.
  - intros bundle media debug w. unfold css.
    assert (Hitems : css_items settings build host' bundle debug w
                     = css_items settings build host bundle debug w).
    { unfold css_items. destruct debug; [|reflexivity].
      unfold bind at 1 4. destruct (bundle_sources settings "css" bundle w) as [[l|e] w1];
        [|reflexivity].
      unfold bind at 1 3. unfold host'.
      rewrite (css_classify_same_but_finder settings host finder' l [] w1 Hoff).
      destruct (css_classify settings host l [] w1) as [[its|e] w2]; [|reflexivity].
      apply mapM_ext. intros x w3. unfold bind. fold host'. now rewrite Hmtime. }
    unfold bind. now rewrite Hitems.
Qed.

Lemma staticfiles_lookup_only_in_debug_witness :
  Py.getattr (DEBUG deployed_settings) false && use_static deployed_settings = false
  /\ get_path deployed_settings app_host "b.less" = "/srv/static/b.less"
  /\ compile_css deployed_settings app_host "b.less" site_world
     = compile_css deployed_settings quiet_host "b.less" site_world
  /\ js deployed_settings None app_host "app" true false false site_world
     = js deployed_settings None quiet_host "app" true false false site_world.
Proof.
  destruct (staticfiles_lookup_only_in_debug deployed_settings None quiet_host
              (static_finder app_host) eq_refl) as (Hpath & Hcompile & Hjs & _).
  split; [reflexivity|].
  split; [exact (Hpath "b.less")|].
  split; [exact (Hcompile "b.less" site_world)|].
  exact (Hjs "app" true false false site_world).
Defined.
